(** * Force-OCR pipeline of [app.py]: a shallow embedding and its properties

    The development follows the source file top-down:
    - [Py]      the Python built-ins the program relies on (str methods,
                slicing, f-string number formatting);
    - [Pillow]  the image operations used by [_preprocess_for_ocr];
    - [App]     the functions of [app.py] themselves, the worker loop
                included, over an explicit environment of collaborators
                (PyMuPDF, Tesseract, os.path) and an explicit world state
                (files written, GUI log, progress bar).

    Python [int] is [Z]; [len] results are [nat]; [str] is [string], one
    [ascii] standing for one character with code point below 256. *)

From Stdlib Require Import ZArith List String Ascii Bool Lia QArith.
From Stdlib Require Import DecimalString DecimalZ.
From Equations Require Import Equations.
Import ListNotations.

Local Open Scope string_scope.
Local Open Scope list_scope.
Local Open Scope Z_scope.

(* ===================================================================== *)
(** ** Python built-ins *)
(* ===================================================================== *)

Module Py.

(** The newline character and the separator used by [join_pages]. *)
Definition nl : string := String "010"%char EmptyString.
Definition blank_line : string := nl ++ nl.

(** [str.isspace] on one character, for code points below 256:
    TAB..CR, FS..US, SPACE, NEL and NBSP. *)
Definition isspace (c : ascii) : bool :=
  let n := nat_of_ascii c in
  ((9 <=? n) && (n <=? 13) || (28 <=? n) && (n <=? 32)
   || (n =? 133) || (n =? 160))%nat.

(** [s.lstrip()], [s.rstrip()], [s.strip()]. *)
Fixpoint lstrip (s : string) : string :=
  match s with
  | EmptyString => EmptyString
  | String c s' => if isspace c then lstrip s' else s
  end.

Fixpoint rstrip (s : string) : string :=
  match s with
  | EmptyString => EmptyString
  | String c s' =>
      match rstrip s' with
      | EmptyString => if isspace c then EmptyString else String c EmptyString
      | r => String c r
      end
  end.

Definition strip (s : string) : string := rstrip (lstrip s).

(** Truthiness of a [str]: the empty string is falsy. *)
Definition truthy (s : string) : bool :=
  match s with EmptyString => false | _ => true end.

(** [a or b] on strings. *)
Definition str_or (a b : string) : string := if truthy a then a else b.

(** [sep.join(l)]. *)
Definition join (sep : string) (l : list string) : string :=
  String.concat sep l.

(** Index normalisation of [l[start:stop]] for a list of length [n]:
    negative indices count from the end, everything is clamped to [0, n]. *)
Definition slice_index (n i : Z) : Z :=
  if i <? 0 then Z.max (i + n) 0 else Z.min i n.

(** [l[start:stop]]. *)
Definition slice {A : Type} (l : list A) (start stop : Z) : list A :=
  let n := Z.of_nat (List.length l) in
  let lo := slice_index n start in
  let hi := slice_index n stop in
  firstn (Z.to_nat (hi - lo)) (skipn (Z.to_nat lo) l).

(** [str(n)] / [f"{n}"] for an [int]. *)
Definition str_of_int (n : Z) : string :=
  NilZero.string_of_int (Z.to_int n).

Fixpoint zeros (k : nat) : string :=
  match k with
  | O => EmptyString
  | S k' => String "0"%char (zeros k')
  end.

(** Left-pad a digit string with zeros up to [width] characters. *)
Definition zfill (width : nat) (digits : string) : string :=
  zeros (width - String.length digits) ++ digits.

(** [f"{n:03d}"]: sign-aware zero padding to a minimum width of three. *)
Definition fmt_03d (n : Z) : string :=
  if n <? 0 then String "-"%char (zfill 2 (str_of_int (- n)))
  else zfill 3 (str_of_int n).

(** [s.startswith(p)]. *)
Definition startswith (p s : string) : bool := String.prefix p s.

(** Scanner shared by [split] and [replace]: walks [s] left to right; at
    each position where [sep] occurs (and we are not inside a match already
    consumed, counted by [skip]) it closes the current piece. [cur] holds
    the current piece. *)
Fixpoint split_from (sep : string) (s : string) (skip : nat)
         (cur : string) : list string :=
  match s with
  | EmptyString => [cur]
  | String c s' =>
      match skip with
      | S k => split_from sep s' k cur
      | O =>
          if startswith sep s
          then cur :: split_from sep s' (String.length sep - 1) EmptyString
          else split_from sep s' O (cur ++ String c EmptyString)
      end
  end.

(** [s.split(sep)] for a non-empty separator. *)
Definition split (sep s : string) : list string :=
  split_from sep s O EmptyString.

(** [s.replace(old, new)] for a non-empty [old]. *)
Definition replace (old new s : string) : string :=
  join new (split old s).

(** ASCII / Latin-1 [str.lower] on one character. *)
Definition lower_char (c : ascii) : ascii :=
  let n := nat_of_ascii c in
  if ((65 <=? n) && (n <=? 90)
      || (192 <=? n) && (n <=? 222) && negb (n =? 215))%nat
  then ascii_of_nat (n + 32) else c.

Fixpoint lower (s : string) : string :=
  match s with
  | EmptyString => EmptyString
  | String c s' => String (lower_char c) (lower s')
  end.

End Py.

(* ===================================================================== *)
(** ** The text helpers of app.py *)
(* ===================================================================== *)

(** [join_pages(pages_text, start_idx, end_idx)]:
    ["\n\n".join(pages_text[start_idx:end_idx]).strip()]. *)
Definition join_pages (pages_text : list string) (start_idx end_idx : Z)
  : string :=
  Py.strip (Py.join Py.blank_line (Py.slice pages_text start_idx end_idx)).

(** The placeholder literal of the two writers. *)
Definition NO_TEXT : string := "(No text extracted.)".

(** *** The reading of [join] given by the specification

    The page texts with 1-based indices [a..b], in order. *)
Definition pages_between (pageTexts : list string) (a b : Z) : list string :=
  map (fun k => nth (Z.to_nat (a - 1) + k)%nat pageTexts EmptyString)
      (seq 0 (Z.to_nat (b - a + 1))).

(** Concatenation with one blank line between consecutive entries. *)
Fixpoint blank_line_between (l : list string) : string :=
  match l with
  | [] => EmptyString
  | x :: rest =>
      match rest with
      | [] => x
      | _ => x ++ Py.blank_line ++ blank_line_between rest
      end
  end.

Definition spec_join (pageTexts : list string) (a b : Z) : string :=
  Py.strip (blank_line_between (pages_between pageTexts a b)).

(* ===================================================================== *)
(** ** Pillow: the image operations of the preprocessor *)
(* ===================================================================== *)

Module Pillow.

(** An ["RGB"] image as built by [Image.frombytes("RGB", [w, h], samples)]:
    its size and its raw sample bytes. *)
Record RGBImage : Type := mkRGB {
  rgb_size : Z * Z;
  rgb_samples : list Z
}.

(** A single-band ["L"] image: its rows of 8-bit pixels, top to bottom. *)
Definition LImage : Type := list (list Z).

(** Resampling filters accepted by [Image.resize]. *)
Inductive Resampling : Type := NEAREST | BILINEAR | BICUBIC | LANCZOS.

Definition height (im : LImage) : nat := List.length im.

Definition width (im : LImage) : nat :=
  match im with
  | [] => O
  | row :: _ => List.length row
  end.

Definition getpixel (im : LImage) (x y : nat) : Z :=
  nth x (nth y im []) 0.

(** The raw bytes of an ["L"] image ([Image.tobytes]). *)
Definition tobytes (im : LImage) : list Z := List.concat im.

(** [im.point(f)] on an ["L"] image: [f] applied to every pixel. *)
Definition point (f : Z -> Z) (im : LImage) : LImage :=
  map (map f) im.

(** Insertion sort, used by the rank filter. *)
Fixpoint insert (v : Z) (l : list Z) : list Z :=
  match l with
  | [] => [v]
  | h :: t => if v <=? h then v :: l else h :: insert v t
  end.

Fixpoint sort (l : list Z) : list Z :=
  match l with
  | [] => []
  | h :: t => insert h (sort t)
  end.

(** Coordinate of the source pixel that [Image.expand] replicates at
    position [i] of an axis of length [n] (edge pixels are repeated). *)
Definition clamp (n : nat) (i : Z) : nat :=
  Z.to_nat (Z.max 0 (Z.min i (Z.of_nat n - 1))).

Definition expanded_pixel (im : LImage) (x y : Z) : Z :=
  getpixel im (clamp (width im) x) (clamp (height im) y).

(** Offsets [-size/2 .. size/2] of a [size] x [size] window. *)
Definition offsets (size : nat) : list Z :=
  map (fun k => Z.of_nat k - Z.of_nat (size / 2)) (seq 0 size).

Definition window (size : nat) (im : LImage) (x y : nat) : list Z :=
  flat_map (fun dy =>
              map (fun dx => expanded_pixel im (Z.of_nat x + dx)
                                               (Z.of_nat y + dy))
                  (offsets size))
           (offsets size).

(** [ImageFilter.RankFilter(size, rank)]: the image is expanded by
    [size/2] on every side, then every pixel is replaced by the value of
    the given rank in its window. *)
Definition RankFilter (size rank : nat) (im : LImage) : LImage :=
  map (fun y => map (fun x => nth rank (sort (window size im x y)) 0)
                    (seq 0 (width im)))
      (seq 0 (height im)).

(** [ImageFilter.MedianFilter(size)] is the rank filter of rank
    [size * size // 2]. *)
Definition MedianFilter (size : nat) : LImage -> LImage :=
  RankFilter size (size * size / 2).

(** Conversion of the accumulated sum to a pixel: values at or below 0
    give 0, at or above 255 give 255, the rest is truncated. *)
Definition clip8 (ss : Q) : Z :=
  if Qle_bool ss 0 then 0
  else if Qle_bool 255 ss then 255
  else Z.quot (Qnum ss) (Zpos (Qden ss)).

Definition qpix (im : LImage) (x y : nat) : Q := inject_Z (getpixel im x y).

(** One row of a 3x3 kernel applied around column [x] of row [y]. *)
Definition kernel1x3 (im : LImage) (x y : nat) (k0 k1 k2 : Q) : Q :=
  (qpix im (x - 1) y * k0 + qpix im x y * k1 + qpix im (x + 1) y * k2)%Q.

(** A 3x3 convolution filter on an ["L"] image ([ImageFilter.Kernel] with
    size (3, 3)): images smaller than the kernel are copied; the first
    and last row and column are copied; every other pixel is the clipped
    kernel sum, each weight divided by [scale], plus [offset] plus one
    half for rounding. *)
Definition Kernel3x3 (scale offset : Q) (k : list Q) (im : LImage)
  : LImage :=
  let w := width im in
  let h := height im in
  if ((w <? 3) || (h <? 3))%nat then im
  else
    let kk := fun i => (nth i k 0 / scale)%Q in
    map (fun y =>
           map (fun x =>
                  if ((x =? 0) || (x =? w - 1) || (y =? 0) || (y =? h - 1))%nat
                  then getpixel im x y
                  else clip8 (offset + (1 # 2)
                              + kernel1x3 im x (y + 1) (kk 0%nat) (kk 1%nat) (kk 2%nat)
                              + kernel1x3 im x y (kk 3%nat) (kk 4%nat) (kk 5%nat)
                              + kernel1x3 im x (y - 1) (kk 6%nat) (kk 7%nat) (kk 8%nat))%Q)
               (seq 0 w))
        (seq 0 h).

(** [ImageFilter.SHARPEN]: scale 16, offset 0, centre weight 32 and
    weight -2 for the eight neighbours. *)
Definition SHARPEN : LImage -> LImage :=
  Kernel3x3 16 0
    [ -2; -2; -2;
      -2; 32; -2;
      -2; -2; -2 ]%Q.

(** A pixel is full black or full white. *)
Definition bw_pixel (p : Z) : Prop := p = 0 \/ p = 255.

(** Every pixel of the image is full black or full white. *)
Definition bilevel (im : LImage) : Prop := Forall (Forall bw_pixel) im.

End Pillow.

(* ===================================================================== *)
(** ** Exceptions, results and the world the worker acts on *)
(* ===================================================================== *)

(** A raised Python exception: the name of its class and [str(e)]. *)
Record exn : Type := Exception {
  exn_class : string;
  exn_msg : string
}.

(** Outcome of a call that may raise. *)
Inductive result (A : Type) : Type :=
| Ok (a : A)
| Raise (e : exn).
Arguments Ok {A} a.
Arguments Raise {A} e.

(** [fitz.Pixmap]: the attributes read by [_render_page]. *)
Record Pixmap : Type := mkPixmap {
  pix_width : Z;
  pix_height : Z;
  pix_samples : list Z
}.

(** [reportlab.lib.styles.ParagraphStyle], the attributes set by the
    PDF writer. *)
Record ParagraphStyle : Type := mkStyle {
  style_name : string;
  fontName : string;
  fontSize : Z;
  leading : Z
}.

(** The reportlab flowables the PDF writer builds. *)
Inductive flowable : Type :=
| XPreformatted (markup : string) (style : ParagraphStyle)
| Spacer (w h : Z).

(** What ends up in an output file: the text handed to [f.write] of a
    UTF-8 text file, or the title and story handed to
    [SimpleDocTemplate(...).build]. *)
Inductive artifact : Type :=
| TxtFile (content : string)
| PdfFile (title : string) (flow : list flowable).

(** The lines the worker sends to [self.log], one constructor per
    f-string of the source. *)
Inductive log_msg : Type :=
| LogExtracting (name : string)
| LogPage (pno total dpi : Z)
| LogWritingPdfChunk (start_page end_page : Z)
| LogWritingTxtChunk (start_page end_page : Z)
| LogWritingPdf
| LogWritingTxt
| LogSaved (out_path : string)
| LogError (name : string) (e : exn)
| LogDone.

(** The state the worker changes: every file written (oldest first), the
    contents of the log widget, the value of the progress bar. *)
Record World : Type := mkWorld {
  files : list (string * artifact);
  log_lines : list log_msg;
  pb_value : Z
}.

(** Writing a file. The output folder exists ([start] creates it before
    the worker runs) and writing is taken to succeed. *)
Definition write_file (path : string) (a : artifact) (w : World) : World :=
  mkWorld (files w ++ [(path, a)]) (log_lines w) (pb_value w).

(** [self.log(msg)]. *)
Definition gui_log (msg : log_msg) (w : World) : World :=
  mkWorld (files w) (log_lines w ++ [msg]) (pb_value w).

(** [self.pb.config(value=idx)]. *)
Definition pb_config (idx : Z) (w : World) : World :=
  mkWorld (files w) (log_lines w) idx.


(** Computations that read and change the world and may raise. *)
Definition M (A : Type) : Type := World -> World * result A.

Definition ret {A : Type} (a : A) : M A := fun w => (w, Ok a).

Definition bind {A B : Type} (c : M A) (k : A -> M B) : M B :=
  fun w =>
    match c w with
    | (w', Ok a) => k a w'
    | (w', Raise e) => (w', Raise e)
    end.

(** A call to a collaborator: it leaves the world alone. *)
Definition call {A : Type} (r : result A) : M A := fun w => (w, r).

(** A statement that cannot raise. *)
Definition exec (f : World -> World) : M unit := fun w => (f w, Ok tt).

(** [try: body except Exception as e: handler(e)]. *)
Definition try_except (body : M unit) (handler : exn -> World -> World)
  : World -> World :=
  fun w =>
    match body w with
    | (w', Ok _) => w'
    | (w', Raise e) => handler e w'
    end.

Declare Scope py_scope.
Delimit Scope py_scope with py.
Notation "x <- c ;; k" := (bind c (fun x => k))
  (at level 61, c at next level, right associativity) : py_scope.
Notation "c ;;; k" := (bind c (fun _ => k))
  (at level 61, right associativity) : py_scope.

(** [for x in l: s = body(x, s)], stopping at the first exception. *)
Fixpoint for_in {A S : Type} (l : list A) (body : A -> S -> M S) (s : S)
  : M S :=
  match l with
  | [] => ret s
  | x :: l' => bind (body x s) (for_in l' body)
  end.

(** The collaborators of the program: Pillow's resampling, grayscale and
    autocontrast, PyMuPDF, pytesseract and os.path. *)
Record Env : Type := mkEnv {
  resize : Pillow.RGBImage -> Z * Z -> Pillow.Resampling -> Pillow.RGBImage;
  grayscale : Pillow.RGBImage -> Pillow.LImage;
  autocontrast : Pillow.LImage -> Pillow.LImage;
  Document : Type;
  fitz_open : string -> result Document;
  doc_len : Document -> nat;
  (** [doc.load_page(i).get_pixmap(matrix=fitz.Matrix(zoom, zoom),
      alpha=False)] *)
  page_pixmap : Document -> Z -> Q -> result Pixmap;
  (** [pytesseract.image_to_string(img, lang=lang, config=cfg)] *)
  image_to_string : Pillow.LImage -> string -> string -> result string;
  os_path_basename : string -> string;
  os_path_splitext : string -> string * string;
  os_path_join : string -> string -> string
}.

(** The Tk variables read by [_run_worker] and the selected files. *)
Record Config : Type := mkConfig {
  selected_files : list string;
  var_outdir : string;
  var_lang : string;
  var_dpi : Z;
  var_output_format : string;
  var_chunk_enable : bool;
  var_pages_per_chunk : Z
}.

Definition DEFAULT_OCR_LANG : string := "eng+msa".
Definition DEFAULT_PDF_DPI : Z := 300.

(* ===================================================================== *)
(** ** The functions of app.py *)
(* ===================================================================== *)

Section App.

Variable E : Env.

Local Open Scope py_scope.

(** [int(x)] of a float, the float taken as an exact rational:
    truncation towards zero. *)
Definition py_int (q : Q) : Z := Z.quot (Qnum q) (Zpos (Qden q)).

(** The lambda handed to [point]: [lambda x: 255 if x > 180 else 0]. *)
Definition threshold (x : Z) : Z := if x >? 180 then 255 else 0.

(** The image after the optional upscale of [_preprocess_for_ocr]. *)
Definition upscaled (img : Pillow.RGBImage) (upscale : Q)
  : Pillow.RGBImage :=
  let '(w, h) := Pillow.rgb_size img in
  if Z.min w h <? 1400
  then resize E img (py_int (inject_Z w * upscale),
                     py_int (inject_Z h * upscale)) Pillow.LANCZOS
  else img.

(** [_preprocess_for_ocr(img, upscale)]. *)
Definition _preprocess_for_ocr_with (img : Pillow.RGBImage) (upscale : Q)
  : Pillow.LImage :=
  let img := upscaled img upscale in
  let g := grayscale E img in
  let g := autocontrast E g in
  let bw := Pillow.point threshold g in
  let bw := Pillow.SHARPEN (Pillow.MedianFilter 3 bw) in
  bw.

(** [_preprocess_for_ocr(img)], with the default [upscale=1.5]. *)
Definition _preprocess_for_ocr (img : Pillow.RGBImage) : Pillow.LImage :=
  _preprocess_for_ocr_with img (3 # 2).

(** [_ocr_page_image(img, lang)]. *)
Definition _ocr_page_image (img : Pillow.LImage) (lang : string)
  : result string :=
  let cfg := "--psm 4 --oem 3 -c preserve_interword_spaces=1" in
  match image_to_string E img lang cfg with
  | Ok text => Ok (Py.strip (Py.str_or text ""))
  | Raise e => Raise e
  end.

(** [_render_page(doc, page_index, dpi)]. *)
Definition _render_page (doc : Document E) (page_index dpi : Z)
  : result Pillow.RGBImage :=
  let zoom := (inject_Z dpi / 72)%Q in
  match page_pixmap E doc page_index zoom with
  | Ok pix =>
      Ok (Pillow.mkRGB (pix_width pix, pix_height pix) (pix_samples pix))
  | Raise e => Raise e
  end.

(** [xml.sax.saxutils.escape(data)]. *)
Definition xml_escape (data : string) : string :=
  Py.replace "<" "&lt;" (Py.replace ">" "&gt;" (Py.replace "&" "&amp;" data)).

Definition pre_style : ParagraphStyle := mkStyle "Pre" "Helvetica" 10 14.

(** Truthiness of an optional title ([None] and [""] are falsy). *)
Definition title_truthy (title : option string) : bool :=
  match title with
  | Some t => Py.truthy t
  | None => false
  end.

(** The list [chunks] of [save_text_as_pdf]:
    [[c.strip() for c in safe_text.split("\n\n")] or [placeholder]]. *)
Definition pdf_chunks (text : string) : list string :=
  let safe_text :=
    xml_escape (Py.replace (String "013"%char Py.nl) Py.nl (Py.str_or text ""))
  in
  match map Py.strip (Py.split Py.blank_line safe_text) with
  | [] => [NO_TEXT]
  | cs => cs
  end.

(** The story [flow] of [save_text_as_pdf]. *)
Definition pdf_flow (text : string) (title : option string)
  : list flowable :=
  let flow := [] in
  let flow :=
    match title with
    | Some t =>
        if Py.truthy t
        then flow ++ [XPreformatted (xml_escape t) pre_style; Spacer 1 6]
        else flow
    | None => flow
    end in
  fold_left (fun flow c =>
               if Py.truthy c
               then flow ++ [XPreformatted c pre_style; Spacer 1 6]
               else flow)
            (pdf_chunks text) flow.

(** [save_text_as_pdf(text, output_pdf_path, title)]. *)
Definition save_text_as_pdf (text output_pdf_path : string)
           (title : option string) (w : World) : World :=
  let doc_title :=
    if title_truthy title
    then match title with Some t => t | None => "" end
    else os_path_basename E output_pdf_path in
  write_file output_pdf_path (PdfFile doc_title (pdf_flow text title)) w.

(** [save_text_as_txt(text, output_txt_path)]. *)
Definition save_text_as_txt (text output_txt_path : string) (w : World)
  : World :=
  write_file output_txt_path
             (TxtFile (if Py.truthy text then text else NO_TEXT)) w.

(** The page marker [f"[PAGE {pno}]\n"]. *)
Definition page_marker (pno : Z) : string :=
  ("[PAGE " ++ Py.str_of_int pno ++ "]" ++ Py.nl)%string.

(** Render, preprocess and recognise page [i] (0-based). *)
Definition ocr_page (doc : Document E) (i dpi : Z) (ocr_lang : string)
  : result string :=
  match _render_page doc i dpi with
  | Ok img => _ocr_page_image (_preprocess_for_ocr img) ocr_lang
  | Raise e => Raise e
  end.

(** One turn of the page loop of [extract_text_pages_force_ocr]. *)
Definition extract_page (doc : Document E) (total : nat) (dpi : Z)
           (ocr_lang : string) (log : log_msg -> World -> World)
           (i : nat) (per_page : list string) : M (list string) :=
  let pno := Z.of_nat i + 1 in
  exec (log (LogPage pno (Z.of_nat total) dpi)) ;;;
  txt <- call (ocr_page doc (Z.of_nat i) dpi ocr_lang) ;;
  ret (per_page ++ [(page_marker pno ++ txt)%string]).

(** [extract_text_pages_force_ocr(pdf_path, dpi, ocr_lang, log)]. *)
Definition extract_text_pages_force_ocr (pdf_path : string) (dpi : Z)
           (ocr_lang : string) (log : log_msg -> World -> World)
  : M (list string) :=
  let per_page := [] in
  doc <- call (fitz_open E pdf_path) ;;
  let total := doc_len E doc in
  for_in (seq 0 total) (extract_page doc total dpi ocr_lang log) per_page.

(** *** The worker *)

Variable cfg : Config.

Definition ocr_lang : string := Py.str_or (Py.strip (var_lang cfg)) DEFAULT_OCR_LANG.
Definition dpi : Z := var_dpi cfg.
Definition outdir : string := Py.strip (var_outdir cfg).
Definition fmt : string := Py.lower (Py.strip (var_output_format cfg)).
Definition do_chunk : bool := var_chunk_enable cfg.
Definition pages_per_chunk : Z := var_pages_per_chunk cfg.

(** The file name of a chunk, [f"{base}_p{start_page:03d}-{end_page:03d}"]
    followed by the extension. *)
Definition chunk_file_name (base : string) (start_page end_page : Z)
           (ext : string) : string :=
  (base ++ "_p" ++ Py.fmt_03d start_page ++ "-" ++ Py.fmt_03d end_page
        ++ ext)%string.

(** The body of the chunk loop for the range [start_page..end_page]. *)
Definition write_chunk (name base : string) (pages_text : list string)
           (start_page end_page : Z) (w : World) : World :=
  let chunk_text := join_pages pages_text (start_page - 1) end_page in
  if String.eqb fmt "pdf" then
    let out_path :=
      os_path_join E outdir (chunk_file_name base start_page end_page ".pdf") in
    let w := gui_log (LogWritingPdfChunk start_page end_page) w in
    let title := (name ++ " (pages " ++ Py.str_of_int start_page ++ "-"
                       ++ Py.str_of_int end_page ++ ")")%string in
    let w := save_text_as_pdf chunk_text out_path (Some title) w in
    gui_log (LogSaved out_path) w
  else
    let out_path :=
      os_path_join E outdir (chunk_file_name base start_page end_page ".txt") in
    let w := gui_log (LogWritingTxtChunk start_page end_page) w in
    let w := save_text_as_txt chunk_text out_path w in
    gui_log (LogSaved out_path) w.

(** The [while start_page <= total_pages] loop. It is entered only under
    the guard [pages_per_chunk > 0], hence the positive chunk size. *)
Equations? chunk_loop (name base : string) (pages_text : list string)
          (ppc : positive) (start_page chunk_idx : Z) (w : World) : World
  by wf (Z.to_nat (Z.of_nat (List.length pages_text) + 1 - start_page)) lt :=
chunk_loop name base pages_text ppc start_page chunk_idx w
  with Z_le_gt_dec start_page (Z.of_nat (List.length pages_text)) := {
  | left _ =>
      let total_pages := Z.of_nat (List.length pages_text) in
      let end_page := Z.min (start_page + Zpos ppc - 1) total_pages in
      let w := write_chunk name base pages_text start_page end_page w in
      chunk_loop name base pages_text ppc (end_page + 1) (chunk_idx + 1) w
  | right _ => w }.
Proof. lia. Qed.

(** The single output of the unchunked branch. *)
Definition write_single (name base : string) (pages_text : list string)
           (w : World) : World :=
  let total_pages := Z.of_nat (List.length pages_text) in
  let full_text := join_pages pages_text 0 total_pages in
  if String.eqb fmt "pdf" then
    let out_path := os_path_join E outdir (base ++ "_text.pdf")%string in
    let w := gui_log LogWritingPdf w in
    let w := save_text_as_pdf full_text out_path (Some name) w in
    gui_log (LogSaved out_path) w
  else
    let out_path := os_path_join E outdir (base ++ ".txt")%string in
    let w := gui_log LogWritingTxt w in
    let w := save_text_as_txt full_text out_path w in
    gui_log (LogSaved out_path) w.

(** Lines 254-290: what is done with the extracted page texts. *)
Definition write_outputs (name : string) (pages_text : list string)
           (w : World) : World :=
  let base := fst (os_path_splitext E name) in
  if do_chunk && (pages_per_chunk >? 0)
  then chunk_loop name base pages_text (Z.to_pos pages_per_chunk) 1 1 w
  else write_single name base pages_text w.

(** The body of the [try] statement for one input file. *)
Definition try_file (name pdf_path : string) : M unit :=
  exec (gui_log (LogExtracting name)) ;;;
  pages_text <- extract_text_pages_force_ocr pdf_path dpi ocr_lang gui_log ;;
  exec (write_outputs name pages_text).

(** One turn of the loop over the selected files. *)
Definition process_file (idx : Z) (pdf_path : string) (w : World) : World :=
  let name := os_path_basename E pdf_path in
  let w := try_except (try_file name pdf_path)
                      (fun e => gui_log (LogError name e)) w in
  pb_config idx w.

(** [for idx, pdf_path in enumerate(files, start=idx)]. *)
Fixpoint run_files (idx : Z) (paths : list string) (w : World) : World :=
  match paths with
  | [] => w
  | pdf_path :: rest => run_files (idx + 1) rest (process_file idx pdf_path w)
  end.

(** [_run_worker(self)]. The final [os.startfile] is wrapped in a
    [try/except: pass] and touches nothing of the world. *)
Definition _run_worker (w : World) : World :=
  gui_log LogDone (run_files 1 (selected_files cfg) w).

(** The 1-based page ranges [(start_page, end_page)] the chunk loop goes
    through, in order. *)
Equations? chunk_ranges (total_pages : Z) (ppc : positive) (start_page : Z)
  : list (Z * Z)
  by wf (Z.to_nat (total_pages + 1 - start_page)) lt :=
chunk_ranges total_pages ppc start_page
  with Z_le_gt_dec start_page total_pages := {
  | left _ =>
      let end_page := Z.min (start_page + Zpos ppc - 1) total_pages in
      (start_page, end_page) :: chunk_ranges total_pages ppc (end_page + 1)
  | right _ => [] }.
Proof. lia. Qed.

(** The page ranges whose joined text the worker writes for a document of
    [total_pages] pages: those of the chunk loop, or the full range of the
    unchunked branch ([join_pages(pages_text, 0, total_pages)]). *)
Definition page_ranges (total_pages : Z) : list (Z * Z) :=
  if do_chunk && (pages_per_chunk >? 0)
  then chunk_ranges total_pages (Z.to_pos pages_per_chunk) 1
  else [(1, total_pages)].

End App.

(* ===================================================================== *)
(** ** A concrete environment, for running the program on examples *)
(* ===================================================================== *)

Module Sample.

(** [posixpath.basename]: what follows the last slash. *)
Fixpoint basename (p : string) : string :=
  match p with
  | EmptyString => EmptyString
  | String c p' =>
      match String.index 0 "/" p' with
      | Some _ => basename p'
      | None => if Ascii.eqb c "/"%char then p' else p
      end
  end.

(** Split at the last dot, if any. *)
Fixpoint split_last_dot (s : string) : option (string * string) :=
  match s with
  | EmptyString => None
  | String c s' =>
      match split_last_dot s' with
      | Some (r, e) => Some (String c r, e)
      | None => if Ascii.eqb c "."%char then Some (EmptyString, s) else None
      end
  end.

Fixpoint all_dots (s : string) : bool :=
  match s with
  | EmptyString => true
  | String c s' => Ascii.eqb c "."%char && all_dots s'
  end.

(** [posixpath.splitext] on a file name (no directory part): the
    extension starts at the last dot, leading dots do not count. *)
Definition splitext (name : string) : string * string :=
  match split_last_dot name with
  | Some (r, e) => if all_dots r then (name, EmptyString) else (r, e)
  | None => (name, EmptyString)
  end.

(** [posixpath.join] of a directory and a relative file name. *)
Definition join (dir name : string) : string :=
  match dir with
  | EmptyString => name
  | _ => (dir ++ "/" ++ name)%string
  end.

(** A document is the list of its pages; a page either rasterises to a
    pixmap or is corrupt. *)
Definition document : Type := list (result Pixmap).

Definition load (doc : document) (i : Z) (zoom : Q) : result Pixmap :=
  nth (Z.to_nat i) doc (Raise (Exception "ValueError" "bad page number(s)")).

(** A page of one row of [k] light-grey pixels. *)
Definition blank_page (k : nat) : result Pixmap :=
  Ok (mkPixmap (Z.of_nat k) 1 (repeat 200 k)).

(** The files on disk: [scan.pdf] has ten pages, page [k] being [k]
    pixels wide; [hello.pdf] has one page; [empty.pdf] has none;
    anything else cannot be opened. *)
Definition open_file (path : string) : result document :=
  if String.eqb path "in/scan.pdf" then Ok (map blank_page (seq 1 10))
  else if String.eqb path "in/hello.pdf" then Ok [blank_page 3]
  else if String.eqb path "in/empty.pdf" then Ok []
  else Raise (Exception "FileDataError" "cannot open file").

(** The engine reads ["Hello World"] (with stray whitespace around it) on
    every image, except that it fails on images seven pixels wide. *)
Definition engine (img : Pillow.LImage) (lang cfg : string) : result string :=
  if (Pillow.width img =? 7)%nat
  then Raise (Exception "TesseractError" "(1, 'engine failure')")
  else Ok ("  Hello World" ++ Py.nl)%string.

Definition env : Env :=
  mkEnv (fun img size _ => Pillow.mkRGB size (Pillow.rgb_samples img))
        (fun img => [Pillow.rgb_samples img])
        (fun g => g)
        document open_file (@List.length _) load engine
        basename splitext join.

Definition config (paths : list string) (format : string) (chunk : bool)
           (per_chunk : Z) : Config :=
  mkConfig paths "out" "eng" 300 format chunk per_chunk.

Definition empty_world : World := mkWorld [] [] 0.

End Sample.

(* ===================================================================== *)
(** ** Vocabulary for the statements *)
(* ===================================================================== *)

(** Page [p] lies in the closed range [r]. *)
Definition in_range (p : Z) (r : Z * Z) : Prop := fst r <= p <= snd r.

(** The ranges are non-empty, the first one starts at [first] and each
    next one starts right after the previous one ends: they are ascending,
    do not overlap and leave no gap. *)
Fixpoint contiguous_from (first : Z) (rs : list (Z * Z)) : Prop :=
  match rs with
  | [] => True
  | (s, e) :: rest => s = first /\ s <= e /\ contiguous_from (e + 1) rest
  end.

(** Every range but the last has [k] pages; the last one ends at [total]
    and has between one and [k] pages. *)
Fixpoint chunk_lengths (k total : Z) (rs : list (Z * Z)) : Prop :=
  match rs with
  | [] => True
  | (s, e) :: rest =>
      match rest with
      | [] => e = total /\ 1 <= e - s + 1 <= k
      | _ => e - s + 1 = k /\ chunk_lengths k total rest
      end
  end.

(** All characters of [s] are whitespace. *)
Fixpoint all_space (s : string) : bool :=
  match s with
  | EmptyString => true
  | String c s' => Py.isspace c && all_space s'
  end.

Definition first_char (s : string) : option ascii :=
  match s with
  | EmptyString => None
  | String c _ => Some c
  end.

Fixpoint last_char (s : string) : option ascii :=
  match s with
  | EmptyString => None
  | String c s' =>
      match last_char s' with
      | Some c' => Some c'
      | None => Some c
      end
  end.

(** [t] is [s] with its leading and trailing whitespace removed: [s] is
    [t] between two runs of whitespace, and [t] neither starts nor ends
    with a whitespace character. *)
Definition trimmed_of (s t : string) : Prop :=
  (exists l r, s = (l ++ t ++ r)%string
               /\ all_space l = true /\ all_space r = true)
  /\ (forall c, first_char t = Some c -> Py.isspace c = false)
  /\ (forall c, last_char t = Some c -> Py.isspace c = false).

(** The Tesseract configuration string of [_ocr_page_image]. *)
Definition OCR_CONFIG : string :=
  "--psm 4 --oem 3 -c preserve_interword_spaces=1".

(** What the text writer leaves in the file for a given text. *)
Definition txt_content (text : string) : string :=
  match text with
  | EmptyString => NO_TEXT
  | _ => text
  end.

(** The extension chosen by the worker for the configured format. *)
Definition ext_of (cfg : Config) : string :=
  if String.eqb (fmt cfg) "pdf" then ".pdf" else ".txt".

(** The path and artifact written for one chunk [r]. *)
Definition chunk_output (E : Env) (cfg : Config) (name base : string)
           (pages : list string) (r : Z * Z) : string * artifact :=
  let chunk_text := join_pages pages (fst r - 1) (snd r) in
  let title := (name ++ " (pages " ++ Py.str_of_int (fst r) ++ "-"
                     ++ Py.str_of_int (snd r) ++ ")")%string in
  if String.eqb (fmt cfg) "pdf" then
    (os_path_join E (outdir cfg)
                  (chunk_file_name base (fst r) (snd r) ".pdf"),
     PdfFile title (pdf_flow chunk_text (Some title)))
  else
    (os_path_join E (outdir cfg)
                  (chunk_file_name base (fst r) (snd r) ".txt"),
     TxtFile (txt_content chunk_text)).

(** The entry appended for page index [i] when the page succeeds. *)
Definition page_text (E : Env) (doc : Document E) (dpi : Z) (lang : string)
           (i : nat) : string :=
  match ocr_page E doc (Z.of_nat i) dpi lang with
  | Ok txt => (page_marker (Z.of_nat i + 1) ++ txt)%string
  | Raise _ => EmptyString
  end.

(** The world after the progress lines of the pages with indices [l]. *)
Definition logged (E : Env) (doc : Document E) (dpi : Z)
           (log : log_msg -> World -> World) (l : list nat) (w : World)
  : World :=
  fold_left (fun w i => log (LogPage (Z.of_nat i + 1)
                                     (Z.of_nat (doc_len E doc)) dpi) w)
            l w.

(** The path and artifact written by the unchunked branch. *)
Definition single_output (E : Env) (cfg : Config) (name base : string)
           (pages : list string) : string * artifact :=
  let full_text := join_pages pages 0 (Z.of_nat (List.length pages)) in
  if String.eqb (fmt cfg) "pdf" then
    let out_path := os_path_join E (outdir cfg) (base ++ "_text.pdf")%string in
    (out_path,
     PdfFile (if Py.truthy name then name else os_path_basename E out_path)
             (pdf_flow full_text (Some name)))
  else
    (os_path_join E (outdir cfg) (base ++ ".txt")%string,
     TxtFile (txt_content full_text)).

(** Everything written for one document whose page texts are [pages]. *)
Definition outputs (E : Env) (cfg : Config) (name : string)
           (pages : list string) : list (string * artifact) :=
  let base := fst (os_path_splitext E name) in
  if do_chunk cfg && (pages_per_chunk cfg >? 0)
  then map (chunk_output E cfg name base pages)
           (chunk_ranges (Z.of_nat (List.length pages))
                         (Z.to_pos (pages_per_chunk cfg)) 1)
  else [single_output E cfg name base pages].

(* ===================================================================== *)
(** ** The start button, and vocabulary for further properties *)
(* ===================================================================== *)

(** How a call of [start] ends: with one of its two warnings, with the
    user declining to go on without a Tesseract executable, or with the
    worker thread launched on a world whose log has been cleared and
    whose progress bar has been reset. [made_dir] is the folder handed to
    [os.makedirs], [tesseract_cmd] the value of
    [pytesseract.pytesseract.tesseract_cmd] afterwards. *)
Inductive start_outcome : Type :=
| NoFiles
| NoOutputFolder
| Declined (made_dir tesseract_cmd : string)
| Launched (made_dir tesseract_cmd : string) (pb_maximum : Z) (w : World).

(** [start(self)]. [isfile] is [os.path.isfile], [answer] what the user
    replies to the yes/no box (asked only when the executable is not
    found), [var_tesseract] the Tk variable of the executable path and
    [tesseract_cmd] the current setting of pytesseract. *)
Definition start (isfile : string -> bool) (answer : bool)
           (var_tesseract tesseract_cmd : string) (cfg : Config)
           (w : World) : start_outcome :=
  match selected_files cfg with
  | [] => NoFiles
  | _ =>
      let outdir := Py.strip (var_outdir cfg) in
      if negb (Py.truthy outdir) then NoOutputFolder
      else
        let tpath := Py.strip var_tesseract in
        let tesseract_cmd :=
          if Py.truthy tpath then tpath else tesseract_cmd in
        if negb (isfile tesseract_cmd) && negb answer
        then Declined outdir tesseract_cmd
        else Launched outdir tesseract_cmd
                      (Z.of_nat (List.length (selected_files cfg)))
                      (mkWorld (files w) [] 0)
  end.

(** Every character of [s] satisfies [P]. *)
Fixpoint str_all (P : ascii -> bool) (s : string) : bool :=
  match s with
  | EmptyString => true
  | String c s' => P c && str_all P s'
  end.

(** The character [c] does not occur in [s]. *)
Definition lacks (c : ascii) (s : string) : bool :=
  str_all (fun x => negb (Ascii.eqb x c)) s.

(** The markup of the paragraph blocks of a story, in order. *)
Fixpoint paragraphs (flow : list flowable) : list string :=
  match flow with
  | [] => []
  | XPreformatted m _ :: rest => m :: paragraphs rest
  | Spacer _ _ :: rest => paragraphs rest
  end.

(** All rows of the image have [w] pixels. *)
Definition rect (w : nat) (im : Pillow.LImage) : Prop :=
  Forall (fun row => List.length row = w) im.

(** What the extraction of [path] returns or raises; it depends neither
    on the world nor on the logger (see [extract_result]). *)
Definition extracted (E : Env) (path : string) (d : Z) (lang : string)
  : result (list string) :=
  snd (extract_text_pages_force_ocr E path d lang (fun _ w => w)
                                    (mkWorld [] [] 0)).

(** The artifacts one input file contributes to a run. *)
Definition file_outputs (E : Env) (cfg : Config) (path : string)
  : list (string * artifact) :=
  match extracted E path (dpi cfg) (ocr_lang cfg) with
  | Ok pages => outputs E cfg (os_path_basename E path) pages
  | Raise _ => []
  end.

(** The error line one input file contributes to the log. *)
Definition file_errors (E : Env) (cfg : Config) (path : string)
  : list (string * exn) :=
  match extracted E path (dpi cfg) (ocr_lang cfg) with
  | Ok _ => []
  | Raise e => [(os_path_basename E path, e)]
  end.

(** The error lines of a log: file name and exception, in order. *)
Fixpoint errors_of (l : list log_msg) : list (string * exn) :=
  match l with
  | [] => []
  | LogError name e :: rest => (name, e) :: errors_of rest
  | _ :: rest => errors_of rest
  end.

(** Reading a page number back from a file name: the value of a string
    of decimal digits, leading zeros allowed. *)
Definition parse_page_number (s : string) : option Z :=
  match s with
  | EmptyString => None
  | _ => option_map Z.of_uint (NilEmpty.uint_of_string s)
  end.

(* ===================================================================== *)
(** ** The bytes of a text file *)
(* ===================================================================== *)

(** The file object of [save_text_as_txt] is opened in text mode with
    [encoding="utf-8"], [errors="ignore"] and the default [newline]: what
    reaches the disk is the text handed to [write] with every newline
    replaced by [os.linesep], encoded as UTF-8. Characters that cannot be
    encoded would be dropped by [errors="ignore"]; the strings of this
    development hold code points below 256 only, all of which encode. *)












(** The artifact was built from [text]: a text file holds the text or,
    for an empty text, the placeholder; a PDF holds the story of the
    text under some title. *)
Definition holds_text (a : artifact) (text : string) : Prop :=
  match a with
  | TxtFile content => content = txt_content text
  | PdfFile _ flow => exists t, flow = pdf_flow text (Some t)
  end.

(* ===================================================================== *)
(** ** Properties of the text helpers *)
(* ===================================================================== *)

Section TextFacts.

Lemma strip_empty : Py.strip EmptyString = EmptyString.
Proof. reflexivity. Qed.

Lemma string_append_assoc (s1 s2 s3 : string) :
  ((s1 ++ s2) ++ s3 = s1 ++ (s2 ++ s3))%string.
Proof.
  induction s1 as [|c s1 IH]; simpl; [reflexivity|].
  rewrite IH. reflexivity.
Qed.

Lemma join_nil (sep : string) : Py.join sep [] = EmptyString.
Proof. reflexivity. Qed.

(** One blank line between consecutive entries is what ["\n\n".join]
    computes. *)
Lemma blank_line_between_join (l : list string) :
  blank_line_between l = Py.join Py.blank_line l.
Proof.
  induction l as [|x rest IH]; [reflexivity|].
  destruct rest as [|y rest']; [reflexivity|].
  change (blank_line_between (x :: y :: rest'))
    with (x ++ Py.blank_line ++ blank_line_between (y :: rest'))%string.
  rewrite IH. reflexivity.
Qed.

(** A window of a list, read entry by entry. *)
Lemma firstn_skipn_nth {A : Type} (d : A) (l : list A) (k n : nat) :
  (k + n <= List.length l)%nat ->
  firstn n (skipn k l) = map (fun i => nth (k + i)%nat l d) (seq 0 n).
Proof.
  revert k. induction n as [|n IH]; intros k Hk; [reflexivity|].
  assert (Hlt : (k < List.length l)%nat) by lia.
  destruct (skipn k l) as [|x rest] eqn:Hs.
  - apply (f_equal (@List.length A)) in Hs.
    rewrite length_skipn in Hs. simpl in Hs. lia.
  - simpl. f_equal.
    + rewrite Nat.add_0_r.
      rewrite <- (firstn_skipn k l) at 1.
      rewrite app_nth2 by (rewrite length_firstn; lia).
      rewrite length_firstn, Nat.min_l by lia.
      rewrite Nat.sub_diag, Hs. reflexivity.
    + assert (Hrest : rest = skipn (S k) l).
      { change (S k) with (1 + k)%nat. rewrite <- skipn_skipn, Hs.
        reflexivity. }
      rewrite Hrest, IH by lia.
      rewrite <- seq_shift, map_map.
      apply map_ext. intros i. f_equal. lia.
Qed.

(** The slice taken for the 1-based range [a..b] holds exactly the page
    texts [a..b]. *)
Lemma slice_pages_between (pages : list string) (a b : Z) :
  1 <= a -> a <= b -> b <= Z.of_nat (List.length pages) ->
  Py.slice pages (a - 1) b = pages_between pages a b.
Proof.
  intros Ha Hab Hb. unfold Py.slice, Py.slice_index, pages_between.
  destruct (a - 1 <? 0) eqn:H1; [apply Z.ltb_lt in H1; lia|].
  destruct (b <? 0) eqn:H2; [apply Z.ltb_lt in H2; lia|].
  rewrite !Z.min_l by lia.
  replace (b - (a - 1)) with (b - a + 1) by lia.
  apply firstn_skipn_nth. lia.
Qed.

(** When the normalised bounds cross, the slice is empty. *)
Lemma slice_empty {A : Type} (l : list A) (start stop : Z) :
  start >= stop -> 0 <= stop \/ start < 0 ->
  Py.slice l start stop = [].
Proof.
  intros Hge Hsign. unfold Py.slice, Py.slice_index.
  set (n := Z.of_nat (List.length l)).
  assert (Hn : 0 <= n) by (unfold n; lia).
  assert (Hle : (if stop <? 0 then Z.max (stop + n) 0 else Z.min stop n)
                - (if start <? 0 then Z.max (start + n) 0 else Z.min start n)
                <= 0).
  { destruct (stop <? 0) eqn:H1; destruct (start <? 0) eqn:H2;
      try apply Z.ltb_lt in H1; try apply Z.ltb_lt in H2;
      try apply Z.ltb_ge in H1; try apply Z.ltb_ge in H2; lia. }
  destruct ((if stop <? 0 then Z.max (stop + n) 0 else Z.min stop n)
            - (if start <? 0 then Z.max (start + n) 0 else Z.min start n))
    as [|p|p] eqn:Hd; try reflexivity.
  lia.
Qed.

(** Slicing from the start up to the length gives the whole list. *)
Lemma slice_all {A : Type} (l : list A) :
  Py.slice l 0 (Z.of_nat (List.length l)) = l.
Proof.
  unfold Py.slice, Py.slice_index.
  destruct (Z.of_nat (List.length l) <? 0) eqn:H;
    [apply Z.ltb_lt in H; lia|].
  simpl (0 <? 0). cbv iota.
  rewrite Z.min_id, Z.min_l by lia.
  rewrite Z.sub_0_r, Nat2Z.id. simpl. apply firstn_all.
Qed.

(** [split] never returns the empty list. *)
Lemma split_from_nonempty (sep s : string) (skip : nat) (cur : string) :
  Py.split_from sep s skip cur <> [].
Proof.
  revert skip cur. induction s as [|c s IH]; intros skip cur; simpl.
  - discriminate.
  - destruct skip as [|k]; [|apply IH].
    match goal with
    | |- context [if ?b then _ else _] => destruct b
    end; [discriminate|apply IH].
Qed.

Lemma split_nonempty (sep s : string) : Py.split sep s <> [].
Proof. apply split_from_nonempty. Qed.

(** [lstrip] removes a run of whitespace from the front and stops at the
    first other character. *)
Lemma lstrip_spec (s : string) :
  (exists l, s = (l ++ Py.lstrip s)%string /\ all_space l = true)
  /\ (forall c, first_char (Py.lstrip s) = Some c -> Py.isspace c = false).
Proof.
  induction s as [|c s [[l [Hl Hsp]] Hfirst]]; simpl.
  - split; [exists EmptyString; split; reflexivity|discriminate].
  - destruct (Py.isspace c) eqn:Hc.
    + split; [|exact Hfirst].
      exists (String c l). simpl. rewrite Hc, Hsp, <- Hl.
      split; reflexivity.
    + split; [exists EmptyString; split; reflexivity|].
      simpl. intros c' [= <-]. exact Hc.
Qed.

(** [rstrip] removes a run of whitespace from the back, stops at the last
    other character and keeps the front as it is. *)
Lemma rstrip_spec (s : string) :
  (exists r, s = (Py.rstrip s ++ r)%string /\ all_space r = true)
  /\ (forall c, last_char (Py.rstrip s) = Some c -> Py.isspace c = false)
  /\ (forall c, first_char (Py.rstrip s) = Some c -> first_char s = Some c).
Proof.
  induction s as [|c s [[r [Hr Hsp]] [Hlast Hfirst]]]; simpl.
  - split; [exists EmptyString; split; reflexivity|].
    split; discriminate.
  - destruct (Py.rstrip s) as [|c' t] eqn:Ht.
    + destruct (Py.isspace c) eqn:Hc.
      * split; [|split; discriminate].
        exists (String c r). simpl. rewrite Hc, Hsp.
        simpl in Hr. rewrite <- Hr. split; reflexivity.
      * split; [exists r; split; [simpl; f_equal; exact Hr|exact Hsp]|].
        split; simpl; intros c0 [= <-]; [exact Hc|reflexivity].
    + split; [exists r; split; [simpl; f_equal; exact Hr|exact Hsp]|].
      split.
      * intros c0. change (last_char (String c (String c' t)))
          with (match last_char (String c' t) with
                | Some x => Some x
                | None => Some c
                end).
        destruct (last_char (String c' t)) as [x|] eqn:Hx.
        -- intros [= <-]. apply Hlast. reflexivity.
        -- simpl in Hx. destruct (last_char t); discriminate.
      * simpl. intros c0 H. exact H.
Qed.

(** [strip] trims: what it returns is the text between the leading and
    the trailing whitespace. *)
Lemma strip_trimmed (s : string) : trimmed_of s (Py.strip s).
Proof.
  unfold trimmed_of, Py.strip.
  destruct (lstrip_spec s) as [[l [Hl Hlsp]] Hfirst].
  destruct (rstrip_spec (Py.lstrip s)) as [[r [Hr Hrsp]] [Hlast Hkeep]].
  split; [|split].
  - exists l, r. split; [|split; assumption].
    rewrite <- Hr. exact Hl.
  - intros c Hc. apply Hfirst. apply Hkeep. exact Hc.
  - exact Hlast.
Qed.

Lemma truthy_false (s : string) : Py.truthy s = false <-> s = EmptyString.
Proof. destruct s; simpl; split; congruence. Qed.

End TextFacts.

(* ===================================================================== *)
(** ** Properties of the image operations *)
(* ===================================================================== *)

Section ImageFacts.

Import Pillow.

Lemma bw_pixel_0 : bw_pixel 0.
Proof. left. reflexivity. Qed.

(** A grid computed pixel by pixel is bilevel when every pixel is. *)
Lemma grid_bilevel (f : nat -> nat -> Z) (xs ys : list nat) :
  (forall x y, bw_pixel (f x y)) ->
  bilevel (map (fun y => map (fun x => f x y) xs) ys).
Proof.
  intros Hf. unfold bilevel.
  apply Forall_forall. intros row Hrow.
  apply in_map_iff in Hrow. destruct Hrow as [y [<- _]].
  apply Forall_forall. intros p Hp.
  apply in_map_iff in Hp. destruct Hp as [x [<- _]].
  apply Hf.
Qed.

Lemma nth_bw (l : list Z) (i : nat) :
  Forall bw_pixel l -> bw_pixel (nth i l 0).
Proof.
  intros Hl. destruct (Nat.lt_ge_cases i (List.length l)) as [Hi|Hi].
  - rewrite Forall_forall in Hl. apply Hl. apply nth_In. exact Hi.
  - rewrite nth_overflow by exact Hi. apply bw_pixel_0.
Qed.

(** Reading a bilevel image gives black or white, also out of range. *)
Lemma getpixel_bw (im : LImage) (x y : nat) :
  bilevel im -> bw_pixel (getpixel im x y).
Proof.
  intros Him. unfold getpixel. apply nth_bw.
  destruct (Nat.lt_ge_cases y (List.length im)) as [Hy|Hy].
  - unfold bilevel in Him. rewrite Forall_forall in Him.
    apply Him. apply nth_In. exact Hy.
  - rewrite nth_overflow by exact Hy. constructor.
Qed.

Lemma threshold_bw (x : Z) : bw_pixel (threshold x).
Proof. unfold threshold. destruct (x >? 180); [right|left]; reflexivity. Qed.

(** Binarisation: the thresholded image is bilevel, whatever came in. *)
Lemma point_threshold_bilevel (g : LImage) : bilevel (point threshold g).
Proof.
  unfold bilevel, point.
  apply Forall_forall. intros row Hrow.
  apply in_map_iff in Hrow. destruct Hrow as [r [<- _]].
  apply Forall_forall. intros p Hp.
  apply in_map_iff in Hp. destruct Hp as [v [<- _]].
  apply threshold_bw.
Qed.

Lemma insert_In (v x : Z) (l : list Z) :
  In x (insert v l) -> x = v \/ In x l.
Proof.
  induction l as [|h t IH]; simpl.
  - intros [<-|[]]. left. reflexivity.
  - destruct (v <=? h); simpl.
    + intros [<-|H]; [left; reflexivity|right; exact H].
    + intros [<-|H]; [right; left; reflexivity|].
      destruct (IH H) as [->|Ht]; [left; reflexivity|right; right; exact Ht].
Qed.

(** Sorting invents no value. *)
Lemma sort_In (x : Z) (l : list Z) : In x (sort l) -> In x l.
Proof.
  revert x. induction l as [|h t IH]; simpl; intros x Hx; [exact Hx|].
  destruct (insert_In _ _ _ Hx) as [->|Ht]; [left; reflexivity|].
  right. apply IH. exact Ht.
Qed.

Lemma window_bw (size : nat) (im : LImage) (x y : nat) :
  bilevel im -> Forall bw_pixel (window size im x y).
Proof.
  intros Him. apply Forall_forall. intros p Hp.
  unfold window in Hp. apply in_flat_map in Hp.
  destruct Hp as [dy [_ Hp]]. apply in_map_iff in Hp.
  destruct Hp as [dx [<- _]].
  unfold expanded_pixel. apply getpixel_bw. exact Him.
Qed.

(** A rank filter of a bilevel image is bilevel: every output pixel is
    one of the pixels of its window. *)
Lemma RankFilter_bilevel (size rank : nat) (im : LImage) :
  bilevel im -> bilevel (RankFilter size rank im).
Proof.
  intros Him. unfold RankFilter.
  apply (grid_bilevel (fun x y => nth rank (sort (window size im x y)) 0)).
  intros x y. apply nth_bw.
  apply Forall_forall. intros p Hp. apply sort_In in Hp.
  pose proof (window_bw size im x y Him) as Hw.
  rewrite Forall_forall in Hw. apply Hw. exact Hp.
Qed.

(** The sharpening kernel on nine black-or-white pixels gives black or
    white again. *)
Lemma sharpen_sum_bw (a b c d e f g h i : Z) :
  bw_pixel a -> bw_pixel b -> bw_pixel c ->
  bw_pixel d -> bw_pixel e -> bw_pixel f ->
  bw_pixel g -> bw_pixel h -> bw_pixel i ->
  bw_pixel
    (clip8 (0 + (1 # 2)
            + (inject_Z a * (-2 / 16) + inject_Z b * (-2 / 16)
               + inject_Z c * (-2 / 16))
            + (inject_Z d * (-2 / 16) + inject_Z e * (32 / 16)
               + inject_Z f * (-2 / 16))
            + (inject_Z g * (-2 / 16) + inject_Z h * (-2 / 16)
               + inject_Z i * (-2 / 16)))%Q).
Proof.
  unfold bw_pixel.
  intros [-> | ->] [-> | ->] [-> | ->] [-> | ->] [-> | ->]
         [-> | ->] [-> | ->] [-> | ->] [-> | ->];
    vm_compute; auto.
Qed.

(** Sharpening a bilevel image leaves it bilevel. *)
Lemma SHARPEN_bilevel (im : LImage) : bilevel im -> bilevel (SHARPEN im).
Proof.
  intros Him. unfold SHARPEN, Kernel3x3.
  destruct ((width im <? 3) || (height im <? 3))%nat; [exact Him|].
  match goal with
  | |- bilevel (map (fun y => map (fun x => @?F x y) _) _) =>
      apply (grid_bilevel F)
  end.
  intros x y. cbv beta.
  destruct ((x =? 0) || (x =? width im - 1) || (y =? 0)
            || (y =? height im - 1))%nat.
  - apply getpixel_bw. exact Him.
  - unfold kernel1x3, qpix. cbn [nth].
    apply sharpen_sum_bw; apply getpixel_bw; exact Him.
Qed.

End ImageFacts.

(* ===================================================================== *)
(** ** Properties of the chunk loop *)
(* ===================================================================== *)

Section ChunkFacts.

(** The loop test and body, as rewriting rules. *)
Lemma chunk_ranges_step (total : Z) (ppc : positive) (start : Z) :
  chunk_ranges total ppc start =
  if start <=? total
  then (start, Z.min (start + Zpos ppc - 1) total)
         :: chunk_ranges total ppc (Z.min (start + Zpos ppc - 1) total + 1)
  else [].
Proof.
  rewrite chunk_ranges_equation_1.
  destruct (Z_le_gt_dec start total) as [H|H]; simpl.
  - apply Z.leb_le in H. rewrite H. reflexivity.
  - destruct (start <=? total) eqn:Hb;
      [apply Z.leb_le in Hb; lia|reflexivity].
Qed.

Lemma chunk_loop_step (E : Env) (cfg : Config) (name base : string)
      (pages : list string) (ppc : positive) (start idx : Z) (w : World) :
  chunk_loop E cfg name base pages ppc start idx w =
  if start <=? Z.of_nat (List.length pages)
  then
    let end_page :=
      Z.min (start + Zpos ppc - 1) (Z.of_nat (List.length pages)) in
    chunk_loop E cfg name base pages ppc (end_page + 1) (idx + 1)
               (write_chunk E cfg name base pages start end_page w)
  else w.
Proof.
  rewrite chunk_loop_equation_1.
  destruct (Z_le_gt_dec start (Z.of_nat (List.length pages))) as [H|H];
    simpl.
  - apply Z.leb_le in H. rewrite H. reflexivity.
  - destruct (start <=? _) eqn:Hb; [apply Z.leb_le in Hb; lia|reflexivity].
Qed.

(** Induction on the number of pages still to be written: past the last
    page the loop has stopped; before it, one may assume the property of
    every later start page. *)
Lemma remaining_pages_ind (total : Z) (P : Z -> Prop) :
  (forall start, total < start -> P start) ->
  (forall start,
      start <= total -> (forall start', start < start' -> P start') ->
      P start) ->
  forall start, P start.
Proof.
  intros Hstop Hstep start.
  remember (Z.to_nat (total + 1 - start)) as m eqn:Hm.
  revert start Hm. induction m as [m IH] using lt_wf_ind.
  intros start Hm.
  destruct (Z_le_gt_dec start total) as [Hle|Hgt]; [|apply Hstop; lia].
  apply Hstep; [exact Hle|]. intros start' Hlt.
  apply (IH (Z.to_nat (total + 1 - start'))); [lia|reflexivity].
Qed.

(** The loop writes one chunk per range of [chunk_ranges], in order. *)
Lemma chunk_loop_ranges (E : Env) (cfg : Config) (name base : string)
      (pages : list string) (ppc : positive) (start idx : Z) (w : World) :
  chunk_loop E cfg name base pages ppc start idx w =
  fold_left (fun w r => write_chunk E cfg name base pages (fst r) (snd r) w)
            (chunk_ranges (Z.of_nat (List.length pages)) ppc start) w.
Proof.
  revert idx w.
  induction start as [start Hgt|start Hle IH]
    using (remaining_pages_ind (Z.of_nat (List.length pages)));
    intros idx w; rewrite chunk_loop_step, chunk_ranges_step.
  - destruct (start <=? _) eqn:Hb; [apply Z.leb_le in Hb; lia|reflexivity].
  - apply Z.leb_le in Hle. rewrite Hle. cbv zeta. simpl fold_left.
    apply IH. lia.
Qed.

(** Ascending, disjoint, gap-free. *)
Lemma chunk_ranges_contiguous (total : Z) (ppc : positive) (start : Z) :
  contiguous_from start (chunk_ranges total ppc start).
Proof.
  induction start as [start Hgt|start Hle IH]
    using (remaining_pages_ind total); rewrite chunk_ranges_step.
  - destruct (start <=? total) eqn:Hb;
      [apply Z.leb_le in Hb; lia|exact I].
  - assert (Hb : (start <=? total) = true) by (apply Z.leb_le; exact Hle).
    rewrite Hb. simpl. repeat split; [lia|]. apply IH. lia.
Qed.

(** The ranges cover the pages from [start] to [total] and nothing else. *)
Lemma chunk_ranges_cover (total : Z) (ppc : positive) (start p : Z) :
  start <= p <= total <->
  exists r, In r (chunk_ranges total ppc start) /\ in_range p r.
Proof.
  induction start as [start Hgt|start Hle IH]
    using (remaining_pages_ind total); rewrite chunk_ranges_step.
  - destruct (start <=? total) eqn:Hb; [apply Z.leb_le in Hb; lia|].
    split; [lia|]. intros [r [[] _]].
  - assert (Hb : (start <=? total) = true) by (apply Z.leb_le; exact Hle).
    rewrite Hb.
    set (e := Z.min (start + Zpos ppc - 1) total).
    assert (He : start <= e <= total) by (unfold e; lia).
    specialize (IH (e + 1) ltac:(lia)).
    split.
    + intros Hp. destruct (Z_le_gt_dec p e) as [Hpe|Hpe].
      * exists (start, e). split; [left; reflexivity|].
        unfold in_range; simpl; lia.
      * destruct (proj1 IH ltac:(lia)) as [r [Hin Hr]].
        exists r. split; [right; exact Hin|exact Hr].
    + intros [r [[<-|Hin] Hr]].
      * unfold in_range in Hr; simpl in Hr. lia.
      * assert (e + 1 <= p <= total) by (apply IH; exists r; auto). lia.
Qed.

(** Full chunks, then the remainder. *)
Lemma chunk_ranges_lengths (total : Z) (ppc : positive) (start : Z) :
  chunk_lengths (Zpos ppc) total (chunk_ranges total ppc start).
Proof.
  induction start as [start Hgt|start Hle IH]
    using (remaining_pages_ind total); rewrite chunk_ranges_step.
  - destruct (start <=? total) eqn:Hb;
      [apply Z.leb_le in Hb; lia|exact I].
  - assert (Hb : (start <=? total) = true) by (apply Z.leb_le; exact Hle).
    rewrite Hb.
    set (e := Z.min (start + Zpos ppc - 1) total).
    assert (He : start <= e <= total) by (unfold e; lia).
    specialize (IH (e + 1) ltac:(lia)).
    rewrite chunk_ranges_step in IH |- *.
    destruct (e + 1 <=? total) eqn:Hnext.
    + apply Z.leb_le in Hnext.
      cbn [chunk_lengths]. split; [unfold e in *; lia|exact IH].
    + apply Z.leb_gt in Hnext.
      cbn [chunk_lengths]. unfold e in *. lia.
Qed.

(** The [i]-th range in closed form. *)
Lemma chunk_ranges_nth (total : Z) (ppc : positive) (start : Z) (i : nat)
      (s e : Z) :
  nth_error (chunk_ranges total ppc start) i = Some (s, e) ->
  s = start + Z.of_nat i * Zpos ppc /\
  e = Z.min (s + Zpos ppc - 1) total /\ s <= total.
Proof.
  revert i.
  induction start as [start Hgt|start Hle IH]
    using (remaining_pages_ind total); intros i; rewrite chunk_ranges_step.
  - destruct (start <=? total) eqn:Hb; [apply Z.leb_le in Hb; lia|].
    destruct i; discriminate.
  - assert (Hb : (start <=? total) = true) by (apply Z.leb_le; exact Hle).
    rewrite Hb. destruct i as [|i]; simpl.
    + intros [= <- <-]. lia.
    + intros Hnth.
      set (e0 := Z.min (start + Zpos ppc - 1) total) in *.
      destruct (Z_le_gt_dec (start + Zpos ppc - 1) total) as [Hfull|Hlast].
      * assert (He0 : e0 = start + Zpos ppc - 1) by (unfold e0; lia).
        apply IH in Hnth; [|lia]. rewrite He0 in Hnth. lia.
      * assert (He0 : e0 = total) by (unfold e0; lia).
        rewrite He0, chunk_ranges_step in Hnth.
        destruct (total + 1 <=? total) eqn:Hc;
          [apply Z.leb_le in Hc; lia|].
        destruct i; discriminate.
Qed.

(** No page, no range. *)
Lemma chunk_ranges_none (ppc : positive) : chunk_ranges 0 ppc 1 = [].
Proof. rewrite chunk_ranges_step. reflexivity. Qed.

End ChunkFacts.

(* ===================================================================== *)
(** ** Properties of the writers and of the extraction loop *)
(* ===================================================================== *)

Section PipelineFacts.

Variable E : Env.
Variable cfg : Config.

Lemma files_gui_log (m : log_msg) (w : World) :
  files (gui_log m w) = files w.
Proof. reflexivity. Qed.

Lemma log_lines_gui_log (m : log_msg) (w : World) :
  log_lines (gui_log m w) = log_lines w ++ [m].
Proof. reflexivity. Qed.

Lemma log_lines_pb_config (idx : Z) (w : World) :
  log_lines (pb_config idx w) = log_lines w.
Proof. reflexivity. Qed.

Lemma files_pb_config (idx : Z) (w : World) :
  files (pb_config idx w) = files w.
Proof. reflexivity. Qed.

Lemma files_save_txt (text path : string) (w : World) :
  files (save_text_as_txt text path w)
  = files w ++ [(path, TxtFile (txt_content text))].
Proof. destruct text; reflexivity. Qed.


Lemma files_write_chunk (name base : string) (pages : list string)
      (r : Z * Z) (w : World) :
  files (write_chunk E cfg name base pages (fst r) (snd r) w)
  = files w ++ [chunk_output E cfg name base pages r].
Proof.
  unfold write_chunk, chunk_output.
  destruct (String.eqb (fmt cfg) "pdf").
  - cbv zeta. rewrite files_gui_log. unfold save_text_as_pdf.
    destruct name; reflexivity.
  - cbv zeta. rewrite files_gui_log, files_save_txt. reflexivity.
Qed.

Lemma files_fold_chunks (name base : string) (pages : list string)
      (rs : list (Z * Z)) (w : World) :
  files (fold_left
           (fun w r => write_chunk E cfg name base pages (fst r) (snd r) w)
           rs w)
  = files w ++ map (chunk_output E cfg name base pages) rs.
Proof.
  revert w. induction rs as [|r rs IH]; intros w; simpl.
  - rewrite app_nil_r. reflexivity.
  - rewrite IH, files_write_chunk, <- app_assoc. reflexivity.
Qed.

(** *** The page loop *)

Variable doc : Document E.
Variable dpi0 : Z.
Variable lang : string.
Variable log : log_msg -> World -> World.

Lemma extract_page_ok (i : nat) (acc : list string) (w : World)
      (txt : string) :
  ocr_page E doc (Z.of_nat i) dpi0 lang = Ok txt ->
  extract_page E doc (doc_len E doc) dpi0 lang log i acc w
  = (logged E doc dpi0 log [i] w,
     Ok (acc ++ [(page_marker (Z.of_nat i + 1) ++ txt)%string])).
Proof.
  intros H. unfold extract_page, bind, exec, call, ret. rewrite H.
  reflexivity.
Qed.

Lemma extract_page_raise (i : nat) (acc : list string) (w : World)
      (e : exn) :
  ocr_page E doc (Z.of_nat i) dpi0 lang = Raise e ->
  extract_page E doc (doc_len E doc) dpi0 lang log i acc w
  = (logged E doc dpi0 log [i] w, Raise e).
Proof.
  intros H. unfold extract_page, bind, exec, call, ret. rewrite H.
  reflexivity.
Qed.

Lemma logged_app (l1 l2 : list nat) (w : World) :
  logged E doc dpi0 log (l1 ++ l2) w
  = logged E doc dpi0 log l2 (logged E doc dpi0 log l1 w).
Proof. unfold logged. apply fold_left_app. Qed.

(** When every page of [l] renders and is recognised, the loop returns
    the accumulated texts followed by one entry per page of [l]. *)
Lemma for_in_pages_ok (l : list nat) (acc : list string) (w : World) :
  (forall i, In i l -> exists txt,
        ocr_page E doc (Z.of_nat i) dpi0 lang = Ok txt) ->
  for_in l (extract_page E doc (doc_len E doc) dpi0 lang log) acc w
  = (logged E doc dpi0 log l w,
     Ok (acc ++ map (page_text E doc dpi0 lang) l)).
Proof.
  revert acc w. induction l as [|i l IH]; intros acc w Hall; simpl.
  - rewrite app_nil_r. reflexivity.
  - destruct (Hall i (or_introl eq_refl)) as [txt Htxt].
    unfold bind. rewrite (extract_page_ok i acc w txt Htxt).
    rewrite IH by (intros j Hj; apply Hall; right; exact Hj).
    unfold page_text at 2. rewrite Htxt.
    rewrite <- app_assoc. reflexivity.
Qed.

(** The loop stops at the first page that fails, with that very
    exception. *)
Lemma for_in_pages_raise (l1 l2 : list nat) (p : nat) (e : exn)
      (acc : list string) (w : World) :
  (forall i, In i l1 -> exists txt,
        ocr_page E doc (Z.of_nat i) dpi0 lang = Ok txt) ->
  ocr_page E doc (Z.of_nat p) dpi0 lang = Raise e ->
  for_in (l1 ++ p :: l2) (extract_page E doc (doc_len E doc) dpi0 lang log)
         acc w
  = (logged E doc dpi0 log (l1 ++ [p]) w, Raise e).
Proof.
  revert acc w. induction l1 as [|i l1 IH]; intros acc w Hall Hp; simpl.
  - unfold bind. rewrite (extract_page_raise p acc w e Hp). reflexivity.
  - destruct (Hall i (or_introl eq_refl)) as [txt Htxt].
    unfold bind. rewrite (extract_page_ok i acc w txt Htxt).
    apply IH; [|exact Hp]. intros j Hj. apply Hall. right. exact Hj.
Qed.

(** A loop that returns has recognised every page. *)
Lemma for_in_pages_inv (l : list nat) (acc r : list string)
      (w w' : World) :
  for_in l (extract_page E doc (doc_len E doc) dpi0 lang log) acc w
  = (w', Ok r) ->
  forall i, In i l -> exists txt,
      ocr_page E doc (Z.of_nat i) dpi0 lang = Ok txt.
Proof.
  revert acc w. induction l as [|i l IH]; intros acc w Hrun j Hj;
    [destruct Hj|].
  simpl in Hrun. unfold bind in Hrun.
  destruct (ocr_page E doc (Z.of_nat i) dpi0 lang) as [txt|e] eqn:Hi.
  - rewrite (extract_page_ok i acc w txt Hi) in Hrun.
    destruct Hj as [<-|Hj]; [exists txt; exact Hi|].
    eapply IH; eassumption.
  - rewrite (extract_page_raise i acc w e Hi) in Hrun. discriminate.
Qed.

(** The progress lines written through [gui_log] touch no file. *)
Lemma files_logged_gui (l : list nat) (w : World) :
  files (logged E doc dpi0 gui_log l w) = files w.
Proof.
  revert w. induction l as [|i l IH]; intros w; [reflexivity|].
  unfold logged in *. simpl. rewrite IH. reflexivity.
Qed.

End PipelineFacts.

(* ===================================================================== *)
(** ** Properties of the extraction and of the worker *)
(* ===================================================================== *)

Section WorkerFacts.

Variable E : Env.
Variable cfg : Config.

Lemma seq_split_at (p n : nat) :
  (p < n)%nat -> seq 0 n = seq 0 p ++ p :: seq (S p) (n - S p).
Proof.
  intros Hp. replace n with (p + S (n - S p))%nat at 1 by lia.
  rewrite seq_app. reflexivity.
Qed.

(** A document that cannot be opened: nothing is logged, the exception of
    [fitz.open] reaches the caller. *)
Lemma extract_open_raise (path : string) (d : Z) (lang : string)
      (log : log_msg -> World -> World) (w : World) (e : exn) :
  fitz_open E path = Raise e ->
  extract_text_pages_force_ocr E path d lang log w = (w, Raise e).
Proof.
  intros H. unfold extract_text_pages_force_ocr, bind, call. rewrite H.
  reflexivity.
Qed.

(** Every page succeeds: the extraction returns one entry per page. *)
Lemma extract_ok (path : string) (d : Z) (lang : string)
      (log : log_msg -> World -> World) (w : World) (doc : Document E) :
  fitz_open E path = Ok doc ->
  (forall i, (i < doc_len E doc)%nat ->
             exists txt, ocr_page E doc (Z.of_nat i) d lang = Ok txt) ->
  extract_text_pages_force_ocr E path d lang log w
  = (logged E doc d log (seq 0 (doc_len E doc)) w,
     Ok (map (page_text E doc d lang) (seq 0 (doc_len E doc)))).
Proof.
  intros Hopen Hall. unfold extract_text_pages_force_ocr, bind, call.
  rewrite Hopen. cbv zeta.
  rewrite for_in_pages_ok; [reflexivity|].
  intros i Hi. apply in_seq in Hi. apply Hall. lia.
Qed.

(** Page index [p] is the first to fail: the extraction stops there. *)
Lemma extract_raise (path : string) (d : Z) (lang : string)
      (log : log_msg -> World -> World) (w : World) (doc : Document E)
      (p : nat) (e : exn) :
  fitz_open E path = Ok doc ->
  (p < doc_len E doc)%nat ->
  (forall i, (i < p)%nat ->
             exists txt, ocr_page E doc (Z.of_nat i) d lang = Ok txt) ->
  ocr_page E doc (Z.of_nat p) d lang = Raise e ->
  extract_text_pages_force_ocr E path d lang log w
  = (logged E doc d log (seq 0 (S p)) w, Raise e).
Proof.
  intros Hopen Hp Hbefore Hfail.
  unfold extract_text_pages_force_ocr, bind, call.
  rewrite Hopen. cbv zeta.
  rewrite (seq_split_at p (doc_len E doc) Hp).
  rewrite (for_in_pages_raise E doc d lang log (seq 0 p) _ p e);
    [|intros i Hi; apply in_seq in Hi; apply Hbefore; lia|exact Hfail].
  rewrite seq_S. reflexivity.
Qed.

(** An extraction that returns has opened the document and recognised
    every page of it. *)
Lemma extract_inv (path : string) (d : Z) (lang : string)
      (log : log_msg -> World -> World) (w w' : World) (r : list string) :
  extract_text_pages_force_ocr E path d lang log w = (w', Ok r) ->
  exists doc,
    fitz_open E path = Ok doc /\
    (forall i, (i < doc_len E doc)%nat ->
               exists txt, ocr_page E doc (Z.of_nat i) d lang = Ok txt).
Proof.
  intros Hrun. unfold extract_text_pages_force_ocr, bind, call in Hrun.
  destruct (fitz_open E path) as [doc|e] eqn:Hopen; [|discriminate].
  exists doc. split; [reflexivity|]. intros i Hi.
  eapply for_in_pages_inv; [exact Hrun|]. apply in_seq. lia.
Qed.

(** The files written for the page texts [pages]. *)
Lemma files_write_outputs (name : string) (pages : list string)
      (w : World) :
  files (write_outputs E cfg name pages w)
  = files w ++ outputs E cfg name pages.
Proof.
  unfold write_outputs, outputs.
  destruct (do_chunk cfg && (pages_per_chunk cfg >? 0)).
  - rewrite chunk_loop_ranges. apply files_fold_chunks.
  - unfold write_single, single_output.
    destruct (String.eqb (fmt cfg) "pdf"); cbv zeta.
    + rewrite files_gui_log. unfold save_text_as_pdf. simpl. reflexivity.
    + rewrite files_gui_log, files_save_txt. reflexivity.
Qed.

(** One input file whose extraction succeeds. *)
Lemma process_file_ok (idx : Z) (path : string) (w w1 : World)
      (pages : list string) :
  extract_text_pages_force_ocr E path (dpi cfg) (ocr_lang cfg) gui_log
    (gui_log (LogExtracting (os_path_basename E path)) w) = (w1, Ok pages) ->
  process_file E cfg idx path w
  = pb_config idx (write_outputs E cfg (os_path_basename E path) pages w1).
Proof.
  intros H. unfold process_file, try_except, try_file, bind, exec.
  rewrite H. reflexivity.
Qed.

(** One input file whose extraction raises: the error is logged and that
    is all. *)
Lemma process_file_raise (idx : Z) (path : string) (w w1 : World)
      (e : exn) :
  extract_text_pages_force_ocr E path (dpi cfg) (ocr_lang cfg) gui_log
    (gui_log (LogExtracting (os_path_basename E path)) w) = (w1, Raise e) ->
  process_file E cfg idx path w
  = pb_config idx (gui_log (LogError (os_path_basename E path) e) w1).
Proof.
  intros H. unfold process_file, try_except, try_file, bind, exec.
  rewrite H. reflexivity.
Qed.

End WorkerFacts.

Section WorldFacts.

Variable E : Env.

Lemma str_or_empty (t : string) : Py.str_or t EmptyString = t.
Proof. destruct t; reflexivity. Qed.

(** The log after the progress lines of the pages [l]. *)
Lemma log_lines_logged_gui (doc : Document E) (d : Z) (l : list nat)
      (w : World) :
  log_lines (logged E doc d gui_log l w)
  = log_lines w
    ++ map (fun i => LogPage (Z.of_nat i + 1) (Z.of_nat (doc_len E doc)) d) l.
Proof.
  revert w. induction l as [|i l IH]; intros w.
  - simpl. rewrite app_nil_r. reflexivity.
  - unfold logged in *. simpl. rewrite IH. simpl.
    rewrite <- app_assoc. reflexivity.
Qed.

(** Extraction writes no file, whether it returns or raises. *)
Lemma files_extract (path : string) (d : Z) (lang : string)
      (w w' : World) (r : result (list string)) :
  extract_text_pages_force_ocr E path d lang gui_log w = (w', r) ->
  files w' = files w.
Proof.
  unfold extract_text_pages_force_ocr, bind, call.
  destruct (fitz_open E path) as [doc|e]; [|intros [= <- _]; reflexivity].
  cbv zeta. generalize (@nil string) as acc. revert w.
  induction (seq 0 (doc_len E doc)) as [|i l IH]; intros w acc; simpl.
  - intros [= <- _]. reflexivity.
  - unfold bind, extract_page at 1, bind, exec, call, ret.
    destruct (ocr_page E doc (Z.of_nat i) d lang) as [txt|e].
    + intros H. apply IH in H. rewrite H. reflexivity.
    + intros [= <- _]. reflexivity.
Qed.

(** Three characters for every page number below one thousand. *)
Lemma fmt_03d_length (n : Z) :
  0 <= n < 1000 -> String.length (Py.fmt_03d n) = 3%nat.
Proof.
  intros Hn.
  assert (Hall : forallb (fun k => (String.length (Py.fmt_03d (Z.of_nat k))
                                    =? 3)%nat) (seq 0 1000) = true)
    by (vm_compute; reflexivity).
  rewrite forallb_forall in Hall.
  specialize (Hall (Z.to_nat n)).
  rewrite Z2Nat.id in Hall by lia.
  apply Nat.eqb_eq. apply Hall. apply in_seq. lia.
Qed.

End WorldFacts.

(* ===================================================================== *)
(** ** The claims *)
(* ===================================================================== *)

(** C1. With chunking enabled and a chunk size [k > 0], the worker writes
    one chunk per range of [page_ranges], and these ranges are ascending,
    disjoint and gap-free from page 1, their union is exactly
    [1..total] (no range at all for a document without pages), every
    range but the last has [k] pages and the last one holds the
    remainder: the [i]-th range starts at [1 + i*k] and ends at
    [min (start + k - 1) total]. With chunking disabled or [k <= 0] the
    single full range [1..total] is used. *)
Theorem chunk_ranges_partition (E : Env) (cfg : Config) (name : string)
        (pages_text : list string) (w : World) :
  let total := Z.of_nat (List.length pages_text) in
  let k := pages_per_chunk cfg in
  let base := fst (os_path_splitext E name) in
  let rs := page_ranges cfg total in
  (do_chunk cfg = true -> 0 < k ->
   write_outputs E cfg name pages_text w
   = fold_left (fun w r =>
                  write_chunk E cfg name base pages_text (fst r) (snd r) w)
               rs w
   /\ contiguous_from 1 rs
   /\ (forall p, 1 <= p <= total <-> exists r, In r rs /\ in_range p r)
   /\ (total = 0 -> rs = [])
   /\ chunk_lengths k total rs
   /\ (forall i s e, nth_error rs i = Some (s, e) ->
                     s = 1 + Z.of_nat i * k /\ e = Z.min (s + k - 1) total))
  /\
  (do_chunk cfg = false \/ k <= 0 ->
   rs = [(1, total)]
   /\ write_outputs E cfg name pages_text w
      = write_single E cfg name base pages_text w).
Proof.
  intros total k base rs. split.
  - intros Hchunk Hk.
    assert (Hguard : do_chunk cfg && (pages_per_chunk cfg >? 0) = true).
    { rewrite Hchunk. simpl. apply Z.gtb_lt. exact Hk. }
    assert (Hpos : Zpos (Z.to_pos k) = k) by (apply Z2Pos.id; exact Hk).
    assert (Hrs : rs = chunk_ranges total (Z.to_pos k) 1).
    { unfold rs, page_ranges. rewrite Hguard. reflexivity. }
    clearbody rs. subst rs.
    refine (conj _ (conj _ (conj _ (conj _ (conj _ _))))).
    + unfold write_outputs. rewrite Hguard. apply chunk_loop_ranges.
    + apply chunk_ranges_contiguous.
    + intros p. apply chunk_ranges_cover.
    + intros H0. rewrite H0. apply chunk_ranges_none.
    + rewrite <- Hpos at 1. apply chunk_ranges_lengths.
    + intros i s e H. apply chunk_ranges_nth in H. rewrite Hpos in H. lia.
  - intros Hoff.
    assert (Hguard : do_chunk cfg && (pages_per_chunk cfg >? 0) = false).
    { destruct Hoff as [H|H]; [rewrite H; reflexivity|].
      apply andb_false_iff. right.
      destruct (pages_per_chunk cfg >? 0) eqn:Hb; [|reflexivity].
      apply Z.gtb_lt in Hb. fold k in Hb. lia. }
    split.
    + unfold rs, page_ranges. rewrite Hguard. reflexivity.
    + unfold write_outputs. rewrite Hguard. reflexivity.
Qed.

Lemma chunk_ranges_partition_witness :
  contiguous_from 1 (page_ranges (Sample.config [] "txt" true 10) 25)
  /\ page_ranges (Sample.config [] "txt" false 10) 25 = [(1, 25)].
Proof.
  pose proof (chunk_ranges_partition
                Sample.env (Sample.config [] "txt" true 10) "scan.pdf"
                (repeat "p" 25) Sample.empty_world) as Hon.
  pose proof (chunk_ranges_partition
                Sample.env (Sample.config [] "txt" false 10) "scan.pdf"
                (repeat "p" 25) Sample.empty_world) as Hoff.
  cbv zeta in Hon, Hoff. split.
  - apply (proj1 Hon); [reflexivity|reflexivity].
  - apply (proj2 Hoff). left. reflexivity.
Defined.

(** C5. For a 1-based inclusive range [a..b] within the list, the chunk
    text the worker computes, [join_pages pageTexts (a - 1) b], is the
    page texts [a] through [b] concatenated with one blank line between
    consecutive entries, with the leading and trailing whitespace of the
    result removed. *)
Theorem join_pages_range (pageTexts : list string) (a b : Z) :
  1 <= a -> a <= b -> b <= Z.of_nat (List.length pageTexts) ->
  join_pages pageTexts (a - 1) b = spec_join pageTexts a b
  /\ trimmed_of (blank_line_between (pages_between pageTexts a b))
                (join_pages pageTexts (a - 1) b).
Proof.
  intros Ha Hab Hb.
  assert (Heq : join_pages pageTexts (a - 1) b = spec_join pageTexts a b).
  { unfold join_pages, spec_join.
    rewrite slice_pages_between by assumption.
    rewrite blank_line_between_join. reflexivity. }
  split; [exact Heq|].
  rewrite Heq. unfold spec_join. apply strip_trimmed.
Qed.

Lemma join_pages_range_witness :
  join_pages ["[PAGE 1]"; "  [PAGE 2]"; "[PAGE 3] "] (2 - 1) 3
  = spec_join ["[PAGE 1]"; "  [PAGE 2]"; "[PAGE 3] "] 2 3
  /\ trimmed_of
       (blank_line_between
          (pages_between ["[PAGE 1]"; "  [PAGE 2]"; "[PAGE 3] "] 2 3))
       (join_pages ["[PAGE 1]"; "  [PAGE 2]"; "[PAGE 3] "] (2 - 1) 3).
Proof.
  apply (join_pages_range ["[PAGE 1]"; "  [PAGE 2]"; "[PAGE 3] "] 2 3);
    simpl; lia.
Defined.

Section TextFileFacts.






End TextFileFacts.




(** C3 (the code departs from it). Given empty text, the PDF writer
    builds no placeholder paragraph: [chunks] is the one-element list
    holding the empty string, which the loop skips, so the story is empty
    without a title and holds only the title block with one. The
    placeholder alternative is never taken, for any text, because
    [split] never returns an empty list. *)
Theorem save_text_as_pdf_empty_text :
  pdf_chunks EmptyString = [EmptyString]
  /\ pdf_flow EmptyString None = []
  /\ (forall c t,
         pdf_flow EmptyString (Some (String c t))
         = [XPreformatted (xml_escape (String c t)) pre_style; Spacer 1 6])
  /\ (forall E path w,
         files (save_text_as_pdf E EmptyString path None w)
         = files w ++ [(path, PdfFile (os_path_basename E path) [])])
  /\ (forall text,
         pdf_chunks text
         = map Py.strip
               (Py.split Py.blank_line
                  (xml_escape (Py.replace (String "013"%char Py.nl) Py.nl
                                          (Py.str_or text EmptyString))))).
Proof.
  split; [reflexivity|]. split; [reflexivity|].
  split; [intros c t; reflexivity|].
  split; [intros E path w; reflexivity|].
  intros text. unfold pdf_chunks.
  destruct (Py.split Py.blank_line _) as [|x l] eqn:Hs; [|reflexivity].
  exfalso. exact (split_nonempty _ _ Hs).
Qed.

(** C10, counterexample. With a negative [end_idx] the slice counts from
    the end of the list: [start_idx = 0 >= end_idx = -1], yet the join
    of a three-page list is not empty. *)
Lemma join_pages_negative_end :
  0 >= -1
  /\ join_pages ["a"; "b"; "c"] 0 (-1) = ("a" ++ Py.blank_line ++ "b")%string
  /\ join_pages ["a"; "b"; "c"] 0 (-1) <> EmptyString.
Proof.
  split; [lia|]. split; [reflexivity|]. discriminate.
Qed.

(** C10, amended. For indices with [start_idx >= end_idx] that are not of
    the shape [start_idx >= 0 > end_idx] (so in every call the worker
    makes, whose indices are never negative), [join_pages] returns the
    empty string; and a document without pages, processed with chunking
    disabled and the text format, produces exactly one artifact,
    [<base>.txt], whose content is ["(No text extracted.)"]. *)
Theorem join_pages_empty_range :
  (forall (pageTexts : list string) (start_idx end_idx : Z),
      start_idx >= end_idx -> 0 <= end_idx \/ start_idx < 0 ->
      join_pages pageTexts start_idx end_idx = EmptyString)
  /\
  (forall (E : Env) (cfg : Config) (idx : Z) (pdf_path : string)
          (w : World) (doc : Document E),
      fitz_open E pdf_path = Ok doc ->
      doc_len E doc = 0%nat ->
      do_chunk cfg = false \/ pages_per_chunk cfg <= 0 ->
      String.eqb (fmt cfg) "pdf" = false ->
      files (process_file E cfg idx pdf_path w)
      = files w
        ++ [(os_path_join E (outdir cfg)
               (fst (os_path_splitext E (os_path_basename E pdf_path))
                ++ ".txt")%string,
             TxtFile "(No text extracted.)")]).
Proof.
  split.
  - intros pages s e Hge Hsign. unfold join_pages.
    rewrite slice_empty by assumption. reflexivity.
  - intros E cfg idx path w doc Hopen Hlen Hoff Hfmt.
    assert (Hrun :
      extract_text_pages_force_ocr E path (dpi cfg) (ocr_lang cfg) gui_log
        (gui_log (LogExtracting (os_path_basename E path)) w)
      = (gui_log (LogExtracting (os_path_basename E path)) w, Ok [])).
    { rewrite (extract_ok E path _ _ _ _ doc Hopen).
      - rewrite Hlen. reflexivity.
      - intros i Hi. lia. }
    rewrite (process_file_ok E cfg idx path w _ _ Hrun).
    rewrite files_pb_config, files_write_outputs, files_gui_log.
    unfold outputs.
    assert (Hguard : do_chunk cfg && (pages_per_chunk cfg >? 0) = false).
    { destruct Hoff as [H|H]; [rewrite H; reflexivity|].
      apply andb_false_iff. right.
      destruct (pages_per_chunk cfg >? 0) eqn:Hb; [|reflexivity].
      apply Z.gtb_lt in Hb. lia. }
    rewrite Hguard. unfold single_output. rewrite Hfmt. reflexivity.
Qed.

Lemma join_pages_empty_range_witness :
  join_pages ["a"; "b"; "c"] 2 1 = EmptyString
  /\ files (process_file Sample.env (Sample.config [] "txt" false 10) 1
                         "in/empty.pdf" Sample.empty_world)
     = [("out/empty.txt", TxtFile "(No text extracted.)")].
Proof.
  split.
  - apply (proj1 join_pages_empty_range ["a"; "b"; "c"] 2 1);
      [lia|left; lia].
  - apply (proj2 join_pages_empty_range Sample.env
                 (Sample.config [] "txt" false 10) 1 "in/empty.pdf"
                 Sample.empty_world []);
      [reflexivity|reflexivity|left; reflexivity|reflexivity].
Defined.

(** C7. The preprocessor applies, in this order: an upscale to
    [(int(1.5 w), int(1.5 h))] with the Lanczos filter exactly when
    [min w h < 1400], grayscale conversion, autocontrast, the threshold
    sending pixels above 180 to 255 and all others to 0, the median
    filter of window 3 (rank 4 of the 9 window values), then the
    sharpening filter; and every pixel of the returned image is 0 or
    255. *)
Theorem preprocess_pipeline (E : Env) (img : Pillow.RGBImage) :
  let w := fst (Pillow.rgb_size img) in
  let h := snd (Pillow.rgb_size img) in
  let scaled :=
    if Z.min w h <? 1400
    then resize E img (Z.quot (w * 3) 2, Z.quot (h * 3) 2) Pillow.LANCZOS
    else img in
  _preprocess_for_ocr E img
  = Pillow.SHARPEN
      (Pillow.RankFilter 3 4
         (Pillow.point (fun x => if x >? 180 then 255 else 0)
            (autocontrast E (grayscale E scaled))))
  /\ Pillow.bilevel (_preprocess_for_ocr E img).
Proof.
  cbv zeta. split.
  - unfold _preprocess_for_ocr, _preprocess_for_ocr_with, upscaled.
    destruct (Pillow.rgb_size img) as [w h]. simpl fst. simpl snd.
    unfold py_int. simpl Qnum. simpl Qden. reflexivity.
  - unfold _preprocess_for_ocr, _preprocess_for_ocr_with.
    apply SHARPEN_bilevel. apply RankFilter_bilevel.
    apply point_threshold_bilevel.
Qed.

(** C6. When the extraction of a document returns, the document was
    opened, the returned list has one entry per page, and its [n]-th
    entry is ["[PAGE n]"], a newline, and the stripped text the engine
    recognised on the preprocessed rendering of page [n] (just the marker
    line when that text is empty). Conversely the extraction does return
    whenever the document opens and every page renders and is
    recognised. *)
Theorem extract_page_texts (E : Env) (pdf_path : string) (d : Z)
        (lang : string) (log : log_msg -> World -> World) (w : World) :
  (forall w' per_page,
      extract_text_pages_force_ocr E pdf_path d lang log w
      = (w', Ok per_page) ->
      exists doc,
        fitz_open E pdf_path = Ok doc
        /\ List.length per_page = doc_len E doc
        /\ forall n, 1 <= n <= Z.of_nat (doc_len E doc) ->
             exists img text,
               _render_page E doc (n - 1) d = Ok img
               /\ image_to_string E (_preprocess_for_ocr E img) lang
                                  OCR_CONFIG = Ok text
               /\ nth (Z.to_nat (n - 1)) per_page EmptyString
                  = ("[PAGE " ++ Py.str_of_int n ++ "]" ++ Py.nl
                     ++ Py.strip text)%string)
  /\
  (forall doc,
      fitz_open E pdf_path = Ok doc ->
      (forall i, (i < doc_len E doc)%nat ->
                 exists txt, ocr_page E doc (Z.of_nat i) d lang = Ok txt) ->
      exists w' per_page,
        extract_text_pages_force_ocr E pdf_path d lang log w
        = (w', Ok per_page)).
Proof.
  split.
  - intros w' per_page Hrun.
    destruct (extract_inv E _ _ _ _ _ _ _ Hrun) as [doc [Hopen Hall]].
    rewrite (extract_ok E _ _ _ _ _ doc Hopen Hall) in Hrun.
    injection Hrun as _ Hpages. subst per_page.
    exists doc. split; [exact Hopen|].
    split; [rewrite length_map, length_seq; reflexivity|].
    intros n Hn.
    assert (Hi : (Z.to_nat (n - 1) < doc_len E doc)%nat) by lia.
    destruct (Hall _ Hi) as [txt Htxt].
    rewrite Z2Nat.id in Htxt by lia.
    pose proof Htxt as Hocr. unfold ocr_page in Hocr.
    destruct (_render_page E doc (n - 1) d) as [img|e]; [|discriminate].
    unfold _ocr_page_image in Hocr.
    destruct (image_to_string E (_preprocess_for_ocr E img) lang _)
      as [text|e] eqn:Heng; [|discriminate].
    injection Hocr as Hocr. rewrite str_or_empty in Hocr.
    exists img, text. split; [reflexivity|]. split; [exact Heng|].
    rewrite (nth_indep _ EmptyString
               (page_text E doc d lang 0%nat))
      by (rewrite length_map, length_seq; exact Hi).
    rewrite map_nth, seq_nth by exact Hi. simpl (0 + _)%nat.
    unfold page_text. rewrite Z2Nat.id by lia. rewrite Htxt.
    unfold page_marker. replace (n - 1 + 1) with n by lia.
    rewrite <- Hocr. rewrite !string_append_assoc. reflexivity.
  - intros doc Hopen Hall.
    rewrite (extract_ok E _ _ _ _ _ doc Hopen Hall).
    eexists. eexists. reflexivity.
Qed.

Lemma extract_page_texts_witness :
  exists doc,
    fitz_open Sample.env "in/hello.pdf" = Ok doc
    /\ List.length
         [("[PAGE 1]" ++ Py.nl ++ "Hello World")%string]
       = doc_len Sample.env doc
    /\ forall n, 1 <= n <= Z.of_nat (doc_len Sample.env doc) ->
         exists img text,
           _render_page Sample.env doc (n - 1) 300 = Ok img
           /\ image_to_string Sample.env (_preprocess_for_ocr Sample.env img)
                              "eng" OCR_CONFIG = Ok text
           /\ nth (Z.to_nat (n - 1))
                  [("[PAGE 1]" ++ Py.nl ++ "Hello World")%string] EmptyString
              = ("[PAGE " ++ Py.str_of_int n ++ "]" ++ Py.nl
                 ++ Py.strip text)%string.
Proof.
  apply (proj1 (extract_page_texts Sample.env "in/hello.pdf" 300 "eng"
                                   gui_log Sample.empty_world)
               (gui_log (LogPage 1 1 300) Sample.empty_world)).
  reflexivity.
Defined.

(** C2, counterexample. The engine fails on page 7 of the ten-page
    sample document: the exception that reaches the caller is the
    engine's own [TesseractError]; it is no [DocumentExtractionError] and
    carries no page index. *)
Lemma extraction_error_not_wrapped :
  snd (extract_text_pages_force_ocr Sample.env "in/scan.pdf" 300 "eng"
                                    gui_log Sample.empty_world)
  = Raise (Exception "TesseractError" "(1, 'engine failure')")
  /\ ~ (exists e,
           snd (extract_text_pages_force_ocr Sample.env "in/scan.pdf" 300
                                             "eng" gui_log Sample.empty_world)
           = Raise e
           /\ exn_class e = "DocumentExtractionError").
Proof.
  split; [reflexivity|].
  intros [e [He Hcls]].
  vm_compute in He. injection He as <-. discriminate Hcls.
Qed.

(** C2, amended. If page [p + 1] of a document is the first on which
    rendering or recognition raises, with exception [e], then the
    extraction returns no page text and raises that same [e] unchanged;
    processing the file writes no artifact; the log receives the
    progress lines of pages [1..p + 1] followed by the error line naming
    the file and [e]; and the batch goes on with the next input file. *)
Theorem page_failure_aborts_document (E : Env) (cfg : Config) (idx : Z)
        (pdf_path : string) (rest : list string) (w : World)
        (doc : Document E) (p : nat) (e : exn) :
  fitz_open E pdf_path = Ok doc ->
  (p < doc_len E doc)%nat ->
  (forall i, (i < p)%nat ->
             exists txt,
               ocr_page E doc (Z.of_nat i) (dpi cfg) (ocr_lang cfg) = Ok txt) ->
  (_render_page E doc (Z.of_nat p) (dpi cfg) = Raise e
   \/ exists img,
       _render_page E doc (Z.of_nat p) (dpi cfg) = Ok img
       /\ _ocr_page_image E (_preprocess_for_ocr E img) (ocr_lang cfg)
          = Raise e) ->
  let name := os_path_basename E pdf_path in
  snd (extract_text_pages_force_ocr E pdf_path (dpi cfg) (ocr_lang cfg)
         gui_log (gui_log (LogExtracting name) w))
  = Raise e
  /\ files (process_file E cfg idx pdf_path w) = files w
  /\ log_lines (process_file E cfg idx pdf_path w)
     = log_lines w
       ++ [LogExtracting name]
       ++ map (fun i => LogPage (Z.of_nat i + 1)
                                (Z.of_nat (doc_len E doc)) (dpi cfg))
              (seq 0 (S p))
       ++ [LogError name e]
  /\ pb_value (process_file E cfg idx pdf_path w) = idx
  /\ run_files E cfg idx (pdf_path :: rest) w
     = run_files E cfg (idx + 1) rest (process_file E cfg idx pdf_path w).
Proof.
  intros Hopen Hp Hbefore Hfail name.
  assert (Hocr : ocr_page E doc (Z.of_nat p) (dpi cfg) (ocr_lang cfg)
                 = Raise e).
  { unfold ocr_page. destruct Hfail as [Hr|[img [Hr Ho]]]; rewrite Hr.
    - reflexivity.
    - exact Ho. }
  pose proof (extract_raise E pdf_path (dpi cfg) (ocr_lang cfg) gui_log
                (gui_log (LogExtracting name) w) doc p e
                Hopen Hp Hbefore Hocr) as Hrun.
  split; [rewrite Hrun; reflexivity|].
  rewrite (process_file_raise E cfg idx pdf_path w _ e Hrun).
  split; [|split; [|split]].
  - rewrite files_pb_config, files_gui_log, files_logged_gui.
    reflexivity.
  - rewrite log_lines_pb_config, log_lines_gui_log, log_lines_logged_gui,
      log_lines_gui_log.
    rewrite <- !app_assoc. reflexivity.
  - reflexivity.
  - cbn [run_files].
    rewrite (process_file_raise E cfg idx pdf_path w _ e Hrun).
    reflexivity.
Qed.

Lemma page_failure_aborts_document_witness :
  files (process_file Sample.env (Sample.config [] "txt" false 10) 1
                      "in/scan.pdf" Sample.empty_world)
  = files Sample.empty_world.
Proof.
  refine (proj1 (proj2
    (page_failure_aborts_document
       Sample.env (Sample.config [] "txt" false 10) 1 "in/scan.pdf" []
       Sample.empty_world (map Sample.blank_page (seq 1 10)) 6
       (Exception "TesseractError" "(1, 'engine failure')") _ _ _ _))).
  - reflexivity.
  - simpl. lia.
  - intros i Hi.
    destruct i as [|[|[|[|[|[|i]]]]]];
      [eexists; reflexivity .. | lia].
  - right. eexists. split; reflexivity.
Defined.

(** C4, counterexample. An unchunked run in PDF format names its artifact
    [<base>_text.pdf], not [<base>.pdf]. *)
Lemma unchunked_pdf_name :
  map fst (files (_run_worker Sample.env
                    (Sample.config ["in/hello.pdf"] "pdf" false 10)
                    Sample.empty_world))
  = ["out/hello_text.pdf"]
  /\ map fst (files (_run_worker Sample.env
                       (Sample.config ["in/hello.pdf"] "pdf" false 10)
                       Sample.empty_world))
     <> [os_path_join Sample.env "out"
           (fst (os_path_splitext Sample.env "hello.pdf") ++ ".pdf")%string].
Proof.
  split; [reflexivity|]. vm_compute. discriminate.
Qed.

(** C4, amended. For a document whose extraction returns the page texts
    [pages]: an unchunked run writes one artifact, named [<base>.txt] in
    text format and [<base>_text.pdf] in PDF format; a chunked run writes
    one artifact per range [start..end] of the chunk loop, named
    [<base>_p<start>-<end>.<ext>] with the two page numbers zero-padded to
    a width of at least three (exactly three below one thousand); a
    25-page document with chunk size 10 yields exactly the three
    artifacts of the ranges 1-10, 11-20 and 21-25. *)
Theorem artifact_names (E : Env) (cfg : Config) (idx : Z)
        (pdf_path : string) (w w1 : World) (pages : list string) :
  let name := os_path_basename E pdf_path in
  let base := fst (os_path_splitext E name) in
  let total := Z.of_nat (List.length pages) in
  let k := pages_per_chunk cfg in
  let chunk_path := fun r : Z * Z =>
    os_path_join E (outdir cfg)
      (base ++ "_p" ++ Py.fmt_03d (fst r) ++ "-" ++ Py.fmt_03d (snd r)
            ++ ext_of cfg)%string in
  extract_text_pages_force_ocr E pdf_path (dpi cfg) (ocr_lang cfg) gui_log
    (gui_log (LogExtracting name) w) = (w1, Ok pages) ->
  map fst (files (process_file E cfg idx pdf_path w))
  = map fst (files w)
    ++ (if do_chunk cfg && (k >? 0)
        then map chunk_path (chunk_ranges total (Z.to_pos k) 1)
        else [os_path_join E (outdir cfg)
                (base ++ (if String.eqb (fmt cfg) "pdf"
                          then "_text.pdf" else ".txt"))%string])
  /\ (do_chunk cfg = true -> k = 10 -> total = 25 ->
      map fst (files (process_file E cfg idx pdf_path w))
      = map fst (files w)
        ++ [chunk_path (1, 10); chunk_path (11, 20); chunk_path (21, 25)])
  /\ (forall n, 0 <= n < 1000 -> String.length (Py.fmt_03d n) = 3%nat).
Proof.
  intros name base total k chunk_path Hrun.
  assert (Hfiles :
    map fst (files (process_file E cfg idx pdf_path w))
    = map fst (files w)
      ++ (if do_chunk cfg && (k >? 0)
          then map chunk_path (chunk_ranges total (Z.to_pos k) 1)
          else [os_path_join E (outdir cfg)
                  (base ++ (if String.eqb (fmt cfg) "pdf"
                            then "_text.pdf" else ".txt"))%string])).
  { rewrite (process_file_ok E cfg idx pdf_path w w1 pages Hrun).
    rewrite files_pb_config, files_write_outputs.
    rewrite (files_extract E _ _ _ _ _ _ Hrun), files_gui_log.
    rewrite map_app. f_equal. unfold outputs. fold name base total k.
    destruct (do_chunk cfg && (k >? 0)).
    - rewrite map_map. apply map_ext. intros r.
      unfold chunk_output, chunk_path, chunk_file_name, ext_of.
      destruct (String.eqb (fmt cfg) "pdf"); reflexivity.
    - unfold single_output.
      destruct (String.eqb (fmt cfg) "pdf"); reflexivity. }
  split; [exact Hfiles|]. split.
  - intros Hchunk Hk Htotal. rewrite Hfiles, Hchunk, Hk, Htotal.
    reflexivity.
  - apply fmt_03d_length.
Qed.

Lemma artifact_names_witness :
  map fst (files (process_file Sample.env
                    (Sample.config [] "txt" false 10) 1 "in/hello.pdf"
                    Sample.empty_world))
  = ["out/hello.txt"].
Proof.
  refine (proj1
    (artifact_names Sample.env (Sample.config [] "txt" false 10) 1
       "in/hello.pdf" Sample.empty_world
       (gui_log (LogPage 1 1 300)
                (gui_log (LogExtracting "hello.pdf") Sample.empty_world))
       [("[PAGE 1]" ++ Py.nl ++ "Hello World")%string] _)).
  reflexivity.
Defined.

(* ===================================================================== *)
(** ** Further properties: the batch *)
(* ===================================================================== *)

Section BatchFacts.

Variable E : Env.
Variable cfg : Config.

Lemma errors_of_app (a b : list log_msg) :
  errors_of (a ++ b) = errors_of a ++ errors_of b.
Proof.
  induction a as [|m a IH]; [reflexivity|].
  destruct m; simpl; rewrite IH; reflexivity.
Qed.

(** Neither the world nor the logger influences what the page loop
    returns. *)
Lemma for_in_pages_result (doc : Document E) (d : Z) (lang : string)
      (log1 log2 : log_msg -> World -> World) (l : list nat)
      (acc : list string) (w1 w2 : World) :
  snd (for_in l (extract_page E doc (doc_len E doc) d lang log1) acc w1)
  = snd (for_in l (extract_page E doc (doc_len E doc) d lang log2) acc w2).
Proof.
  revert acc w1 w2. induction l as [|i l IH]; intros acc w1 w2;
    [reflexivity|].
  simpl. unfold bind.
  destruct (ocr_page E doc (Z.of_nat i) d lang) as [txt|e] eqn:Hi.
  - rewrite (extract_page_ok E doc d lang log1 i acc w1 txt Hi).
    rewrite (extract_page_ok E doc d lang log2 i acc w2 txt Hi).
    apply IH.
  - rewrite (extract_page_raise E doc d lang log1 i acc w1 e Hi).
    rewrite (extract_page_raise E doc d lang log2 i acc w2 e Hi).
    reflexivity.
Qed.

Lemma extract_result (path : string) (d : Z) (lang : string)
      (log : log_msg -> World -> World) (w : World) :
  snd (extract_text_pages_force_ocr E path d lang log w)
  = extracted E path d lang.
Proof.
  unfold extracted, extract_text_pages_force_ocr, bind, call.
  destruct (fitz_open E path) as [doc|e]; [|reflexivity].
  cbv zeta. apply for_in_pages_result.
Qed.

(** Extraction logs through [gui_log] progress lines only. *)
Lemma errors_extract (path : string) (d : Z) (lang : string)
      (w w' : World) (r : result (list string)) :
  extract_text_pages_force_ocr E path d lang gui_log w = (w', r) ->
  errors_of (log_lines w') = errors_of (log_lines w).
Proof.
  unfold extract_text_pages_force_ocr, bind, call.
  destruct (fitz_open E path) as [doc|e]; [|intros [= <- _]; reflexivity].
  cbv zeta. generalize (@nil string) as acc. revert w.
  induction (seq 0 (doc_len E doc)) as [|i l IH]; intros w acc; simpl.
  - intros [= <- _]. reflexivity.
  - unfold bind, extract_page at 1, bind, exec, call, ret.
    destruct (ocr_page E doc (Z.of_nat i) d lang) as [txt|e].
    + intros H. apply IH in H. rewrite H.
      rewrite log_lines_gui_log, errors_of_app. simpl.
      apply app_nil_r.
    + intros [= <- _].
      rewrite log_lines_gui_log, errors_of_app. simpl.
      apply app_nil_r.
Qed.

Lemma errors_write_chunk (name base : string) (pages : list string)
      (s e : Z) (w : World) :
  errors_of (log_lines (write_chunk E cfg name base pages s e w))
  = errors_of (log_lines w).
Proof.
  unfold write_chunk. destruct (String.eqb (fmt cfg) "pdf"); cbv zeta;
    rewrite log_lines_gui_log, errors_of_app; simpl; rewrite app_nil_r.
  - unfold save_text_as_pdf, write_file. simpl log_lines.
    rewrite errors_of_app. simpl. apply app_nil_r.
  - unfold save_text_as_txt, write_file. simpl log_lines.
    rewrite errors_of_app. simpl. apply app_nil_r.
Qed.

Lemma errors_write_outputs (name : string) (pages : list string)
      (w : World) :
  errors_of (log_lines (write_outputs E cfg name pages w))
  = errors_of (log_lines w).
Proof.
  unfold write_outputs.
  destruct (do_chunk cfg && (pages_per_chunk cfg >? 0)).
  - rewrite chunk_loop_ranges.
    generalize (chunk_ranges (Z.of_nat (List.length pages))
                             (Z.to_pos (pages_per_chunk cfg)) 1) as rs.
    intros rs. revert w. induction rs as [|r rs IH]; intros w;
      [reflexivity|].
    simpl. rewrite IH. apply errors_write_chunk.
  - unfold write_single. destruct (String.eqb (fmt cfg) "pdf"); cbv zeta;
      rewrite log_lines_gui_log, errors_of_app; simpl; rewrite app_nil_r.
    + unfold save_text_as_pdf, write_file. simpl log_lines.
      rewrite errors_of_app. simpl. apply app_nil_r.
    + unfold save_text_as_txt, write_file. simpl log_lines.
      rewrite errors_of_app. simpl. apply app_nil_r.
Qed.

(** One input file: what it adds to the files and to the error lines. *)
Lemma process_file_effect (idx : Z) (path : string) (w : World) :
  files (process_file E cfg idx path w)
  = files w ++ file_outputs E cfg path
  /\ errors_of (log_lines (process_file E cfg idx path w))
     = errors_of (log_lines w) ++ file_errors E cfg path
  /\ pb_value (process_file E cfg idx path w) = idx.
Proof.
  destruct (extract_text_pages_force_ocr E path (dpi cfg) (ocr_lang cfg)
              gui_log (gui_log (LogExtracting (os_path_basename E path)) w))
    as [w1 r] eqn:Hrun.
  pose proof (extract_result path (dpi cfg) (ocr_lang cfg) gui_log
                (gui_log (LogExtracting (os_path_basename E path)) w))
    as Hres.
  rewrite Hrun in Hres. simpl in Hres.
  pose proof (files_extract E _ _ _ _ _ _ Hrun) as Hfiles.
  pose proof (errors_extract _ _ _ _ _ _ Hrun) as Herr.
  rewrite log_lines_gui_log, errors_of_app in Herr. simpl in Herr.
  rewrite app_nil_r in Herr.
  unfold file_outputs, file_errors. rewrite <- Hres.
  destruct r as [pages|e].
  - rewrite (process_file_ok E cfg idx path w w1 pages Hrun).
    split; [|split; [|reflexivity]].
    + rewrite files_pb_config, files_write_outputs, Hfiles. reflexivity.
    + rewrite log_lines_pb_config, errors_write_outputs, Herr.
      rewrite app_nil_r. reflexivity.
  - rewrite (process_file_raise E cfg idx path w w1 e Hrun).
    split; [|split; [|reflexivity]].
    + rewrite files_pb_config, files_gui_log, Hfiles, app_nil_r.
      reflexivity.
    + rewrite log_lines_pb_config, log_lines_gui_log, errors_of_app, Herr.
      reflexivity.
Qed.

Lemma run_files_effect (paths : list string) (idx : Z) (w : World) :
  files (run_files E cfg idx paths w)
  = files w ++ flat_map (file_outputs E cfg) paths
  /\ errors_of (log_lines (run_files E cfg idx paths w))
     = errors_of (log_lines w) ++ flat_map (file_errors E cfg) paths
  /\ pb_value (run_files E cfg idx paths w)
     = match paths with
       | [] => pb_value w
       | _ => idx + Z.of_nat (List.length paths) - 1
       end.
Proof.
  revert idx w. induction paths as [|path rest IH]; intros idx w.
  - simpl. rewrite !app_nil_r. repeat split; reflexivity.
  - cbn [run_files flat_map].
    destruct (IH (idx + 1) (process_file E cfg idx path w))
      as [Hf [He Hp]].
    destruct (process_file_effect idx path w) as [Hf1 [He1 Hp1]].
    split; [|split].
    + rewrite Hf, Hf1, app_assoc. reflexivity.
    + rewrite He, He1, app_assoc. reflexivity.
    + rewrite Hp, Hp1. destruct rest; simpl List.length; lia.
Qed.

End BatchFacts.

(** X1. The files a run leaves behind are those present before, followed
    by the artifacts of each selected file in selection order; a file
    whose extraction raises contributes none and changes nothing for the
    files after it. *)
Theorem batch_outputs (E : Env) (cfg : Config) (w : World) :
  files (_run_worker E cfg w)
  = files w ++ flat_map (file_outputs E cfg) (selected_files cfg)
  /\ (forall path e,
         extracted E path (dpi cfg) (ocr_lang cfg) = Raise e ->
         file_outputs E cfg path = [])
  /\ (forall path pages,
         extracted E path (dpi cfg) (ocr_lang cfg) = Ok pages ->
         file_outputs E cfg path
         = outputs E cfg (os_path_basename E path) pages).
Proof.
  split; [|split].
  - unfold _run_worker. rewrite files_gui_log.
    apply (run_files_effect E cfg).
  - intros path e H. unfold file_outputs. rewrite H. reflexivity.
  - intros path pages H. unfold file_outputs. rewrite H. reflexivity.
Qed.

Lemma batch_outputs_witness :
  file_outputs Sample.env (Sample.config [] "txt" false 10) "in/scan.pdf"
  = []
  /\ file_outputs Sample.env (Sample.config [] "txt" false 10)
                  "in/hello.pdf"
     = outputs Sample.env (Sample.config [] "txt" false 10) "hello.pdf"
               [("[PAGE 1]" ++ Py.nl ++ "Hello World")%string].
Proof.
  split.
  - apply (proj1 (proj2 (batch_outputs Sample.env
                           (Sample.config [] "txt" false 10)
                           Sample.empty_world))
                 "in/scan.pdf"
                 (Exception "TesseractError" "(1, 'engine failure')")).
    reflexivity.
  - apply (proj2 (proj2 (batch_outputs Sample.env
                           (Sample.config [] "txt" false 10)
                           Sample.empty_world))
                 "in/hello.pdf").
    reflexivity.
Defined.

(** X3. [start] launches the worker only when at least one file is
    selected, the output folder entry is not blank and the Tesseract
    executable exists or the user agreed to go on without it. The world
    handed to the worker has its log cleared, its progress bar at 0 and
    its files untouched, the maximum of the bar is the number of
    selected files, and when the worker is done the bar stands at that
    maximum, whatever failed in between. Without a selected file
    [start] stops at its first warning. *)
Theorem start_launches_complete_run (E : Env) (isfile : string -> bool)
        (answer : bool) (var_tesseract tesseract_cmd : string)
        (cfg : Config) (w : World) :
  (forall made_dir cmd maximum w0,
      start isfile answer var_tesseract tesseract_cmd cfg w
      = Launched made_dir cmd maximum w0 ->
      selected_files cfg <> []
      /\ outdir cfg <> EmptyString
      /\ made_dir = outdir cfg
      /\ (isfile cmd = true \/ answer = true)
      /\ files w0 = files w
      /\ log_lines w0 = []
      /\ pb_value w0 = 0
      /\ maximum = Z.of_nat (List.length (selected_files cfg))
      /\ pb_value (_run_worker E cfg w0) = maximum)
  /\ (selected_files cfg = [] ->
      start isfile answer var_tesseract tesseract_cmd cfg w = NoFiles).
Proof.
  split.
  - intros made_dir cmd maximum w0. unfold start.
    destruct (selected_files cfg) as [|f rest] eqn:Hsel; [discriminate|].
    fold (outdir cfg).
    destruct (Py.truthy (outdir cfg)) eqn:Hout; [|discriminate].
    simpl negb. cbv iota zeta.
    destruct (negb (isfile _) && negb answer) eqn:Hgo; [discriminate|].
    intros [= <- <- <- <-].
    split; [discriminate|].
    split; [intros H0; rewrite H0 in Hout; discriminate|].
    split; [reflexivity|].
    split.
    { apply andb_false_iff in Hgo. destruct Hgo as [H|H];
        apply negb_false_iff in H; [left|right]; exact H. }
    split; [reflexivity|]. split; [reflexivity|]. split; [reflexivity|].
    split; [reflexivity|].
    unfold _run_worker. change (pb_value (gui_log LogDone ?x))
      with (pb_value x).
    destruct (run_files_effect E cfg (selected_files cfg) 1
                (mkWorld (files w) [] 0)) as [_ [_ Hp]].
    rewrite Hp, Hsel. simpl List.length. lia.
  - intros Hsel. unfold start. rewrite Hsel. reflexivity.
Qed.

Lemma start_launches_complete_run_witness :
  pb_value (_run_worker Sample.env
              (Sample.config ["in/scan.pdf"; "in/hello.pdf"] "txt" false 10)
              (mkWorld [] [] 0))
  = 2
  /\ start (fun _ => false) true "" "tesseract"
           (Sample.config [] "txt" false 10) Sample.empty_world
     = NoFiles.
Proof.
  pose proof (start_launches_complete_run
                Sample.env (fun _ => false) true "" "tesseract"
                (Sample.config ["in/scan.pdf"; "in/hello.pdf"] "txt"
                               false 10)
                (mkWorld [] [LogDone] 7)) as Hrun.
  pose proof (start_launches_complete_run
                Sample.env (fun _ => false) true "" "tesseract"
                (Sample.config [] "txt" false 10) Sample.empty_world)
    as Hnone.
  split.
  - apply (proj1 Hrun "out" "tesseract" 2 (mkWorld [] [] 0)). reflexivity.
  - apply (proj2 Hnone). reflexivity.
Defined.

(** X4. A document that cannot be opened: the extraction raises the
    exception of [fitz.open] at once, with no progress line and no page
    processed, whatever the logger; the worker then writes no file for
    it and logs the file being started and the error, nothing else. *)
Theorem open_failure_skips_file (E : Env) (cfg : Config) (idx : Z)
        (pdf_path : string) (w : World) (e : exn) :
  fitz_open E pdf_path = Raise e ->
  (forall d lang log w0,
      extract_text_pages_force_ocr E pdf_path d lang log w0
      = (w0, Raise e))
  /\ files (process_file E cfg idx pdf_path w) = files w
  /\ log_lines (process_file E cfg idx pdf_path w)
     = log_lines w
       ++ [LogExtracting (os_path_basename E pdf_path);
           LogError (os_path_basename E pdf_path) e].
Proof.
  intros Hopen.
  assert (Hext : forall d lang log w0,
             extract_text_pages_force_ocr E pdf_path d lang log w0
             = (w0, Raise e)).
  { intros d lang log w0. apply extract_open_raise. exact Hopen. }
  split; [exact Hext|].
  rewrite (process_file_raise E cfg idx pdf_path w _ e (Hext _ _ _ _)).
  split; [reflexivity|].
  rewrite log_lines_pb_config, !log_lines_gui_log, <- app_assoc.
  reflexivity.
Qed.

Lemma open_failure_skips_file_witness :
  files (process_file Sample.env (Sample.config [] "pdf" true 10) 3
                      "in/missing.pdf" Sample.empty_world)
  = [].
Proof.
  refine (proj1 (proj2
    (open_failure_skips_file Sample.env (Sample.config [] "pdf" true 10) 3
       "in/missing.pdf" Sample.empty_world
       (Exception "FileDataError" "cannot open file") _))).
  reflexivity.
Defined.

(** X5. When every page of a document is rendered and recognised, the
    extraction sends the logger exactly one progress line per page, for
    the pages [1..n] in ascending order, each stating the page count and
    the DPI, and touches no file. *)
Theorem extraction_progress_lines (E : Env) (pdf_path : string) (d : Z)
        (lang : string) (w : World) (doc : Document E) :
  fitz_open E pdf_path = Ok doc ->
  (forall i, (i < doc_len E doc)%nat ->
             exists txt, ocr_page E doc (Z.of_nat i) d lang = Ok txt) ->
  let w' := fst (extract_text_pages_force_ocr E pdf_path d lang gui_log w) in
  log_lines w'
  = log_lines w
    ++ map (fun i => LogPage (Z.of_nat i + 1) (Z.of_nat (doc_len E doc)) d)
           (seq 0 (doc_len E doc))
  /\ files w' = files w.
Proof.
  intros Hopen Hall w'. unfold w'.
  rewrite (extract_ok E pdf_path d lang gui_log w doc Hopen Hall).
  simpl fst. split.
  - apply log_lines_logged_gui.
  - apply files_logged_gui.
Qed.

Lemma extraction_progress_lines_witness :
  log_lines (fst (extract_text_pages_force_ocr
                    Sample.env "in/hello.pdf" 300 "eng" gui_log
                    Sample.empty_world))
  = [LogPage 1 1 300].
Proof.
  refine (proj1
    (extraction_progress_lines Sample.env "in/hello.pdf" 300 "eng"
       Sample.empty_world [Sample.blank_page 3] _ _)).
  - reflexivity.
  - intros i Hi. destruct i as [|i]; [eexists; reflexivity|].
    simpl in Hi. lia.
Defined.

(* ===================================================================== *)
(** ** Further properties: escaping and the PDF story *)
(* ===================================================================== *)

Section EscapeFacts.

Lemma str_all_app (P : ascii -> bool) (a b : string) :
  str_all P (a ++ b) = str_all P a && str_all P b.
Proof.
  induction a as [|c a IH]; simpl; [reflexivity|].
  rewrite IH, andb_assoc. reflexivity.
Qed.

Lemma str_all_impl (P Q : ascii -> bool) (s : string) :
  (forall c, P c = true -> Q c = true) ->
  str_all P s = true -> str_all Q s = true.
Proof.
  intros HPQ. induction s as [|c s IH]; simpl; [reflexivity|].
  intros H. apply andb_true_iff in H. destruct H as [Hc Hs].
  rewrite (HPQ c Hc), (IH Hs). reflexivity.
Qed.

(** The pieces of a split are made of characters of the text. *)
Lemma split_from_all (P : ascii -> bool) (sep s : string) (skip : nat)
      (cur : string) :
  str_all P s = true -> str_all P cur = true ->
  Forall (fun piece => str_all P piece = true)
         (Py.split_from sep s skip cur).
Proof.
  revert skip cur. induction s as [|c s IH]; intros skip cur Hs Hcur;
    simpl.
  - constructor; [exact Hcur|constructor].
  - simpl in Hs. apply andb_true_iff in Hs. destruct Hs as [Hc Hs].
    destruct skip as [|k]; [|apply IH; assumption].
    match goal with
    | |- context [if ?b then _ else _] => destruct b
    end.
    + constructor; [exact Hcur|]. apply IH; [exact Hs|reflexivity].
    + apply IH; [exact Hs|].
      rewrite str_all_app, Hcur. simpl. rewrite Hc. reflexivity.
Qed.

Lemma join_all (P : ascii -> bool) (sep : string) (l : list string) :
  str_all P sep = true ->
  Forall (fun piece => str_all P piece = true) l ->
  str_all P (Py.join sep l) = true.
Proof.
  intros Hsep Hl. induction Hl as [|x l Hx Hl IH]; [reflexivity|].
  destruct l as [|y l']; [exact Hx|].
  change (Py.join sep (x :: y :: l'))
    with (x ++ sep ++ Py.join sep (y :: l'))%string.
  rewrite !str_all_app, Hx, Hsep, IH. reflexivity.
Qed.

(** Replacing brings in no character that is neither in the text nor in
    the replacement. *)
Lemma replace_all (P : ascii -> bool) (old new s : string) :
  str_all P s = true -> str_all P new = true ->
  str_all P (Py.replace old new s) = true.
Proof.
  intros Hs Hnew. unfold Py.replace. apply join_all; [exact Hnew|].
  apply split_from_all; [exact Hs|reflexivity].
Qed.

Lemma prefix_empty (s : string) : String.prefix EmptyString s = true.
Proof. destruct s; reflexivity. Qed.

Lemma startswith_char (c x : ascii) (s : string) :
  Py.startswith (String c EmptyString) (String x s) = Ascii.eqb x c.
Proof.
  unfold Py.startswith. simpl.
  destruct (ascii_dec c x) as [->|Hne].
  - rewrite prefix_empty, Ascii.eqb_refl. reflexivity.
  - symmetry. apply Ascii.eqb_neq. congruence.
Qed.

(** Splitting at a character leaves pieces without that character. *)
Lemma split_char_lacks (c : ascii) (s cur : string) :
  lacks c cur = true ->
  Forall (fun piece => lacks c piece = true)
         (Py.split_from (String c EmptyString) s O cur).
Proof.
  revert cur. induction s as [|x s IH]; intros cur Hcur.
  - constructor; [exact Hcur|constructor].
  - cbn [Py.split_from]. rewrite startswith_char.
    destruct (Ascii.eqb x c) eqn:Hx.
    + constructor; [exact Hcur|]. simpl Nat.sub. apply IH. reflexivity.
    + apply IH. unfold lacks in *. rewrite str_all_app, Hcur. simpl.
      rewrite Hx. reflexivity.
Qed.

(** Replacing a character removes every occurrence of it, provided the
    replacement does not contain it. *)
Lemma replace_char_lacks (c : ascii) (new s : string) :
  lacks c new = true ->
  lacks c (Py.replace (String c EmptyString) new s) = true.
Proof.
  intros Hnew. unfold Py.replace, lacks. apply join_all; [exact Hnew|].
  apply (split_char_lacks c s EmptyString). reflexivity.
Qed.

Lemma split_char_absent (c : ascii) (s cur : string) :
  lacks c s = true ->
  Py.split_from (String c EmptyString) s O cur = [(cur ++ s)%string].
Proof.
  revert cur. induction s as [|x s IH]; intros cur Hs.
  - simpl. f_equal. clear. induction cur as [|y cur IH];
      simpl; [reflexivity|]. rewrite <- IH. reflexivity.
  - unfold lacks in Hs. simpl in Hs. apply andb_true_iff in Hs.
    destruct Hs as [Hx Hs]. apply negb_true_iff in Hx.
    cbn [Py.split_from]. rewrite startswith_char, Hx.
    rewrite (IH _ Hs). f_equal. apply string_append_assoc.
Qed.

(** Replacing a character that does not occur changes nothing. *)
Lemma replace_char_absent (c : ascii) (new s : string) :
  lacks c s = true -> Py.replace (String c EmptyString) new s = s.
Proof.
  intros Hs. unfold Py.replace, Py.split.
  rewrite (split_char_absent c s EmptyString Hs). reflexivity.
Qed.

Lemma lstrip_all (P : ascii -> bool) (s : string) :
  str_all P s = true -> str_all P (Py.lstrip s) = true.
Proof.
  induction s as [|c s IH]; simpl; [reflexivity|].
  intros H. destruct (Py.isspace c); [|exact H].
  apply andb_true_iff in H. apply IH. apply H.
Qed.

Lemma rstrip_all (P : ascii -> bool) (s : string) :
  str_all P s = true -> str_all P (Py.rstrip s) = true.
Proof.
  induction s as [|c s IH]; simpl; [reflexivity|].
  intros H. apply andb_true_iff in H. destruct H as [Hc Hs].
  specialize (IH Hs). destruct (Py.rstrip s) as [|c' t].
  - destruct (Py.isspace c); simpl; [reflexivity|].
    rewrite Hc. reflexivity.
  - change (str_all P (String c (String c' t)))
      with (P c && str_all P (String c' t)).
    rewrite Hc, IH. reflexivity.
Qed.

Lemma strip_all (P : ascii -> bool) (s : string) :
  str_all P s = true -> str_all P (Py.strip s) = true.
Proof. intros H. apply rstrip_all, lstrip_all, H. Qed.

(** Whitespace only strips to nothing, and nothing else does. *)
Lemma lstrip_space (s : string) :
  all_space s = true <-> Py.lstrip s = EmptyString.
Proof.
  induction s as [|c s IH]; simpl; [split; reflexivity|].
  destruct (Py.isspace c); simpl; [exact IH|].
  split; discriminate.
Qed.

Lemma rstrip_empty (s : string) :
  Py.rstrip s = EmptyString -> all_space s = true.
Proof.
  induction s as [|c s IH]; simpl; [reflexivity|].
  destruct (Py.rstrip s) as [|c' t]; [|discriminate].
  destruct (Py.isspace c); [|discriminate].
  intros _. apply IH. reflexivity.
Qed.

Lemma all_space_suffix (s : string) :
  all_space (Py.lstrip s) = true -> all_space s = true.
Proof.
  induction s as [|c s IH]; simpl; [reflexivity|].
  destruct (Py.isspace c) eqn:Hc; simpl; [exact IH|].
  rewrite Hc. discriminate.
Qed.

Lemma strip_space (s : string) :
  all_space s = true <-> Py.strip s = EmptyString.
Proof.
  unfold Py.strip. split.
  - intros H. apply lstrip_space in H. rewrite H. reflexivity.
  - intros H. apply rstrip_empty in H. apply all_space_suffix. exact H.
Qed.

Lemma all_space_str_all (s : string) :
  all_space s = str_all Py.isspace s.
Proof. induction s as [|c s IH]; simpl; [|rewrite IH]; reflexivity. Qed.

(** No whitespace character is markup-significant. *)
Lemma space_not_markup (c : ascii) :
  Py.isspace c = true ->
  negb (Ascii.eqb c "&") = true /\ negb (Ascii.eqb c "<") = true
  /\ negb (Ascii.eqb c ">") = true.
Proof.
  destruct c as [[|] [|] [|] [|] [|] [|] [|] [|]];
    vm_compute; intros H; try discriminate H; repeat split.
Qed.

(** The escaped text holds no raw angle bracket. *)
Lemma xml_escape_lacks (data : string) :
  lacks "<" (xml_escape data) = true /\ lacks ">" (xml_escape data) = true.
Proof.
  unfold xml_escape. split.
  - apply replace_char_lacks. reflexivity.
  - unfold lacks. apply replace_all; [|reflexivity].
    apply (replace_char_lacks ">"). reflexivity.
Qed.

(** Text without [&], [<] and [>] is escaped to itself. *)
Lemma xml_escape_plain (data : string) :
  lacks "&" data = true -> lacks "<" data = true ->
  lacks ">" data = true -> xml_escape data = data.
Proof.
  intros Ha Hl Hg. unfold xml_escape.
  rewrite (replace_char_absent "&" _ data Ha).
  rewrite (replace_char_absent ">" _ data Hg).
  apply replace_char_absent. exact Hl.
Qed.

(** The story: the title block if any, then one paragraph and one spacer
    per non-empty chunk. *)
Lemma fold_flow (cs : list string) (flow0 : list flowable) :
  fold_left (fun flow c =>
               if Py.truthy c
               then flow ++ [XPreformatted c pre_style; Spacer 1 6]
               else flow) cs flow0
  = flow0
    ++ flat_map (fun c => [XPreformatted c pre_style; Spacer 1 6])
                (filter Py.truthy cs).
Proof.
  revert flow0. induction cs as [|c cs IH]; intros flow0; simpl.
  - rewrite app_nil_r. reflexivity.
  - rewrite IH. destruct (Py.truthy c); simpl; [|reflexivity].
    rewrite <- app_assoc. reflexivity.
Qed.

Lemma paragraphs_app (a b : list flowable) :
  paragraphs (a ++ b) = paragraphs a ++ paragraphs b.
Proof.
  induction a as [|f a IH]; [reflexivity|].
  destruct f; simpl; rewrite IH; reflexivity.
Qed.

Lemma paragraphs_blocks (cs : list string) :
  paragraphs (flat_map (fun c => [XPreformatted c pre_style; Spacer 1 6]) cs)
  = cs.
Proof. induction cs as [|c cs IH]; simpl; [|rewrite IH]; reflexivity. Qed.

Lemma length_blocks (cs : list string) :
  List.length
    (flat_map (fun c => [XPreformatted c pre_style; Spacer 1 6]) cs)
  = (2 * List.length cs)%nat.
Proof. induction cs as [|c cs IH]; simpl; [|rewrite IH]; lia. Qed.

Lemma pdf_chunks_eq (text : string) :
  pdf_chunks text
  = map Py.strip
        (Py.split Py.blank_line
           (xml_escape (Py.replace (String "013"%char Py.nl) Py.nl text))).
Proof.
  unfold pdf_chunks. rewrite str_or_empty.
  destruct (Py.split Py.blank_line _) as [|x l] eqn:Hs; [|reflexivity].
  exfalso. exact (split_nonempty _ _ Hs).
Qed.

Lemma pdf_flow_eq (text : string) (title : option string) :
  pdf_flow text title
  = (if title_truthy title
     then [XPreformatted
             (xml_escape (match title with Some t => t | None => "" end))
             pre_style; Spacer 1 6]
     else [])
    ++ flat_map (fun c => [XPreformatted c pre_style; Spacer 1 6])
                (filter Py.truthy (pdf_chunks text)).
Proof.
  unfold pdf_flow. cbv zeta. rewrite fold_flow.
  destruct title as [t|]; simpl; [|reflexivity].
  destruct (Py.truthy t); reflexivity.
Qed.

End EscapeFacts.

Section StoryFacts.

(** A separator whose first character does not occur is never found. *)
Lemma split_absent_head (c : ascii) (sep' s cur : string) :
  lacks c s = true ->
  Py.split_from (String c sep') s O cur = [(cur ++ s)%string].
Proof.
  revert cur. induction s as [|x s IH]; intros cur Hs.
  - simpl. f_equal. clear. induction cur as [|y cur IH];
      simpl; [reflexivity|]. rewrite <- IH. reflexivity.
  - unfold lacks in Hs. simpl in Hs. apply andb_true_iff in Hs.
    destruct Hs as [Hx Hs]. apply negb_true_iff in Hx.
    cbn [Py.split_from]. unfold Py.startswith. simpl String.prefix.
    destruct (ascii_dec c x) as [->|Hne];
      [rewrite Ascii.eqb_refl in Hx; discriminate|].
    rewrite (IH _ Hs). f_equal. apply string_append_assoc.
Qed.

Lemma replace_absent_head (c : ascii) (old' new s : string) :
  lacks c s = true -> Py.replace (String c old') new s = s.
Proof.
  intros Hs. unfold Py.replace, Py.split.
  rewrite (split_absent_head c old' s EmptyString Hs). reflexivity.
Qed.

Lemma blank_chunks (l : list string) :
  Forall (fun piece => str_all Py.isspace piece = true) l ->
  filter Py.truthy (map Py.strip l) = [].
Proof.
  intros Hl. induction Hl as [|x l Hx Hl IH]; [reflexivity|].
  simpl. rewrite <- all_space_str_all in Hx.
  apply strip_space in Hx. rewrite Hx. simpl. exact IH.
Qed.

Lemma filter_truthy_In (m : string) (l : list string) :
  In m (filter Py.truthy l) -> In m l /\ m <> EmptyString.
Proof.
  intros H. apply filter_In in H. destruct H as [Hin Ht].
  split; [exact Hin|]. intros ->. discriminate Ht.
Qed.

(** The paragraphs of the story: the title, then the non-empty chunks. *)
Lemma pdf_paragraphs_eq (text : string) (title : option string) :
  paragraphs (pdf_flow text title)
  = (if title_truthy title
     then [xml_escape (match title with Some t => t | None => "" end)]
     else [])
    ++ filter Py.truthy
         (map Py.strip
            (Py.split Py.blank_line
               (xml_escape
                  (Py.replace (String "013"%char Py.nl) Py.nl text)))).
Proof.
  rewrite pdf_flow_eq, paragraphs_app, paragraphs_blocks, pdf_chunks_eq.
  destruct (title_truthy title); reflexivity.
Qed.

End StoryFacts.

(** X6. The PDF story is exactly this list of flowables: when a
    non-empty title is given, the escaped title as a paragraph followed
    by a spacer; then, for each non-empty stripped piece of the escaped
    text between blank lines, in order, that piece as a paragraph
    immediately followed by one spacer, and nothing else. Its paragraphs
    are therefore the title and these pieces, the story has twice as many
    flowables as paragraphs, and no text paragraph is empty or starts or
    ends with whitespace. *)
Theorem pdf_story_structure (text : string) (title : option string) :
  let pieces :=
    map Py.strip
        (Py.split Py.blank_line
           (xml_escape (Py.replace (String "013"%char Py.nl) Py.nl text)))
  in
  pdf_flow text title
  = (if title_truthy title
     then [XPreformatted
             (xml_escape (match title with Some t => t | None => "" end))
             pre_style;
           Spacer 1 6]
     else [])
    ++ flat_map (fun c => [XPreformatted c pre_style; Spacer 1 6])
                (filter Py.truthy pieces)
  /\ paragraphs (pdf_flow text title)
     = (if title_truthy title
        then [xml_escape (match title with Some t => t | None => "" end)]
        else [])
       ++ filter Py.truthy pieces
  /\ List.length (pdf_flow text title)
     = (2 * List.length (paragraphs (pdf_flow text title)))%nat
  /\ (forall m, In m (filter Py.truthy pieces) ->
                m <> EmptyString
                /\ (forall c, first_char m = Some c -> Py.isspace c = false)
                /\ (forall c, last_char m = Some c -> Py.isspace c = false)).
Proof.
  cbv zeta.
  split; [rewrite pdf_flow_eq, pdf_chunks_eq; reflexivity|].
  split; [apply pdf_paragraphs_eq|]. split.
  - rewrite pdf_paragraphs_eq, <- pdf_chunks_eq.
    rewrite pdf_flow_eq, !length_app, length_blocks.
    destruct (title_truthy title); simpl; lia.
  - intros m Hm. apply filter_truthy_In in Hm. destruct Hm as [Hin Hne].
    split; [exact Hne|].
    apply in_map_iff in Hin.
    destruct Hin as [piece [<- _]].
    destruct (strip_trimmed piece) as [_ [Hfirst Hlast]].
    split; assumption.
Qed.

Lemma pdf_story_structure_witness :
  "a&lt;b" <> EmptyString
  /\ (forall c, first_char "a&lt;b" = Some c -> Py.isspace c = false)
  /\ (forall c, last_char "a&lt;b" = Some c -> Py.isspace c = false).
Proof.
  apply (proj2 (proj2 (proj2
           (pdf_story_structure
              ("a<b" ++ Py.blank_line ++ "  " ++ Py.blank_line)%string
              (Some "t"))))).
  vm_compute. left. reflexivity.
Defined.

(** X7. Whatever the text and the title, no paragraph block of the PDF
    story holds a raw [<] or [>]: the markup-significant angle brackets
    of the input never reach reportlab's markup parser. *)
Theorem pdf_story_escaped (text : string) (title : option string)
        (m : string) :
  In m (paragraphs (pdf_flow text title)) ->
  lacks "<" m = true /\ lacks ">" m = true.
Proof.
  intros Hm. rewrite pdf_paragraphs_eq in Hm.
  apply in_app_or in Hm. destruct Hm as [Hm|Hm].
  - destruct (title_truthy title); [|destruct Hm].
    destruct Hm as [<-|[]]. apply xml_escape_lacks.
  - apply filter_In in Hm. destruct Hm as [Hm _].
    apply in_map_iff in Hm. destruct Hm as [piece [<- Hpiece]].
    destruct (xml_escape_lacks
                (Py.replace (String "013"%char Py.nl) Py.nl text))
      as [Hl Hg].
    unfold lacks in *.
    pose proof (split_from_all _ Py.blank_line _ O EmptyString Hl eq_refl)
      as Hall_l.
    pose proof (split_from_all _ Py.blank_line _ O EmptyString Hg eq_refl)
      as Hall_g.
    rewrite Forall_forall in Hall_l, Hall_g.
    split; apply strip_all; [apply Hall_l|apply Hall_g]; exact Hpiece.
Qed.

Lemma pdf_story_escaped_witness :
  lacks "<" "a&lt;b&gt;" = true /\ lacks ">" "a&lt;b&gt;" = true.
Proof.
  apply (pdf_story_escaped ("x" ++ Py.blank_line ++ " a<b> ")%string None).
  vm_compute. right. left. reflexivity.
Defined.

(** X8. Text that holds none of [&], [<], [>] and no carriage return
    reaches the PDF unchanged: its paragraphs are exactly its own
    non-empty stripped pieces between blank lines; and escaping alone
    leaves any text without [&], [<], [>] as it is. *)
Theorem pdf_story_plain_text (text : string) :
  (lacks "&" text = true -> lacks "<" text = true ->
   lacks ">" text = true -> xml_escape text = text)
  /\ (lacks "&" text = true -> lacks "<" text = true ->
      lacks ">" text = true -> lacks "013" text = true ->
      paragraphs (pdf_flow text None)
      = filter Py.truthy (map Py.strip (Py.split Py.blank_line text))).
Proof.
  split.
  - apply xml_escape_plain.
  - intros Ha Hl Hg Hcr.
    rewrite pdf_paragraphs_eq. simpl app.
    rewrite (replace_absent_head "013" Py.nl Py.nl text Hcr).
    rewrite (xml_escape_plain text Ha Hl Hg). reflexivity.
Qed.

Lemma pdf_story_plain_text_witness :
  xml_escape "[PAGE 12]" = "[PAGE 12]"
  /\ paragraphs (pdf_flow "[PAGE 12]" None)
     = filter Py.truthy
              (map Py.strip (Py.split Py.blank_line "[PAGE 12]")).
Proof.
  split.
  - apply (proj1 (pdf_story_plain_text "[PAGE 12]")); reflexivity.
  - apply (proj2 (pdf_story_plain_text "[PAGE 12]")); reflexivity.
Defined.

(** X9. A text made of whitespace only (blank lines included) gives a
    PDF story without any text paragraph: no placeholder is put in its
    place, and without a title the story is empty. *)
Theorem pdf_story_blank_text (text : string) :
  all_space text = true ->
  pdf_flow text None = []
  /\ forall title,
       paragraphs (pdf_flow text title)
       = if title_truthy title
         then [xml_escape (match title with Some t => t | None => "" end)]
         else [].
Proof.
  intros Hsp. rewrite all_space_str_all in Hsp.
  assert (Hcr : str_all Py.isspace
                  (Py.replace (String "013"%char Py.nl) Py.nl text) = true)
    by (apply replace_all; [exact Hsp|reflexivity]).
  assert (Hesc : xml_escape (Py.replace (String "013"%char Py.nl) Py.nl text)
                 = Py.replace (String "013"%char Py.nl) Py.nl text).
  { apply xml_escape_plain; unfold lacks;
      apply (str_all_impl Py.isspace _ _) with (2 := Hcr);
      intros c Hc; apply (space_not_markup c Hc). }
  assert (Hchunks : filter Py.truthy (pdf_chunks text) = []).
  { rewrite pdf_chunks_eq, Hesc. apply blank_chunks.
    apply split_from_all; [exact Hcr|reflexivity]. }
  split.
  - rewrite pdf_flow_eq, Hchunks. reflexivity.
  - intros title. rewrite pdf_flow_eq, Hchunks, paragraphs_app. simpl.
    rewrite app_nil_r. destruct (title_truthy title); reflexivity.
Qed.

Lemma pdf_story_blank_text_witness :
  pdf_flow (" " ++ Py.blank_line ++ Py.nl ++ "  ")%string None = [].
Proof.
  apply (pdf_story_blank_text (" " ++ Py.blank_line ++ Py.nl ++ "  ")%string).
  reflexivity.
Defined.

(* ===================================================================== *)
(** ** Further properties: the image filters *)
(* ===================================================================== *)

Section FilterFacts.

Import Pillow.

Lemma map_nth_all {A : Type} (d : A) (l : list A) :
  map (fun i => nth i l d) (seq 0 (List.length l)) = l.
Proof.
  induction l as [|a l IH]; [reflexivity|].
  simpl. f_equal. rewrite <- seq_shift, map_map. exact IH.
Qed.

(** Reading a rectangular image pixel by pixel gives the image back. *)
Lemma grid_rows (im : LImage) :
  rect (width im) im ->
  map (fun y => map (fun x => getpixel im x y) (seq 0 (width im)))
      (seq 0 (height im))
  = im.
Proof.
  intros Hrect. unfold height.
  etransitivity; [|apply (map_nth_all [] im)].
  apply map_ext_in. intros y Hy. apply in_seq in Hy.
  unfold rect in Hrect. rewrite Forall_forall in Hrect.
  assert (Hlen : List.length (nth y im []) = width im)
    by (apply Hrect, nth_In; lia).
  unfold getpixel. rewrite <- Hlen. apply map_nth_all.
Qed.

Lemma nth_grid {A : Type} (f : nat -> A) (d : A) (n i : nat) :
  (i < n)%nat -> nth i (map f (seq 0 n)) d = f i.
Proof.
  intros Hi. rewrite (nth_indep _ d (f 0%nat))
    by (rewrite length_map, length_seq; exact Hi).
  rewrite map_nth, seq_nth by exact Hi. reflexivity.
Qed.

(** The rank filter returns a rectangular image of the same height and
    width. *)
Lemma RankFilter_shape (size rank : nat) (im : LImage) :
  height (RankFilter size rank im) = height im
  /\ rect (width im) (RankFilter size rank im)
  /\ (im <> [] -> width (RankFilter size rank im) = width im).
Proof.
  unfold RankFilter, height. split; [|split].
  - rewrite length_map, length_seq. reflexivity.
  - apply Forall_forall. intros row Hrow. apply in_map_iff in Hrow.
    destruct Hrow as [y [<- _]]. rewrite length_map, length_seq.
    reflexivity.
  - intros Hne. destruct im as [|r rest]; [contradiction|].
    simpl. rewrite length_map, length_seq. reflexivity.
Qed.

Lemma RankFilter_rect (size rank : nat) (im : LImage) :
  rect (width (RankFilter size rank im)) (RankFilter size rank im).
Proof.
  destruct im as [|r rest] eqn:Him; [constructor|].
  rewrite <- Him.
  destruct (RankFilter_shape size rank im) as [_ [Hrect Hw]].
  rewrite Hw by (rewrite Him; discriminate). exact Hrect.
Qed.

(** On nine black-or-white pixels the sharpening kernel returns the
    centre pixel. *)
Lemma sharpen_sum_centre (a b c d e f g h i : Z) :
  bw_pixel a -> bw_pixel b -> bw_pixel c ->
  bw_pixel d -> bw_pixel e -> bw_pixel f ->
  bw_pixel g -> bw_pixel h -> bw_pixel i ->
  clip8 (0 + (1 # 2)
         + (inject_Z a * (-2 / 16) + inject_Z b * (-2 / 16)
            + inject_Z c * (-2 / 16))
         + (inject_Z d * (-2 / 16) + inject_Z e * (32 / 16)
            + inject_Z f * (-2 / 16))
         + (inject_Z g * (-2 / 16) + inject_Z h * (-2 / 16)
            + inject_Z i * (-2 / 16)))%Q
  = e.
Proof.
  unfold bw_pixel.
  intros [-> | ->] [-> | ->] [-> | ->] [-> | ->] [-> | ->]
         [-> | ->] [-> | ->] [-> | ->] [-> | ->];
    vm_compute; reflexivity.
Qed.

(** Sharpening changes no pixel of a rectangular bilevel image. *)
Lemma SHARPEN_bilevel_id (im : LImage) :
  bilevel im -> rect (width im) im -> SHARPEN im = im.
Proof.
  intros Hbw Hrect. unfold SHARPEN, Kernel3x3.
  destruct ((width im <? 3) || (height im <? 3))%nat; [reflexivity|].
  etransitivity; [|apply (grid_rows im Hrect)].
  apply map_ext. intros y. apply map_ext. intros x.
  destruct ((x =? 0) || (x =? width im - 1) || (y =? 0)
            || (y =? height im - 1))%nat; [reflexivity|].
  unfold kernel1x3, qpix. cbn [nth].
  apply sharpen_sum_centre; apply getpixel_bw; exact Hbw.
Qed.

(** The value of rank 4 among nine black-or-white pixels is white
    exactly when at least five of them are white. *)
Lemma median9_majority (a b c d e f g h i : Z) :
  bw_pixel a -> bw_pixel b -> bw_pixel c ->
  bw_pixel d -> bw_pixel e -> bw_pixel f ->
  bw_pixel g -> bw_pixel h -> bw_pixel i ->
  nth 4 (sort [a; b; c; d; e; f; g; h; i]) 0
  = if Nat.leb 5 (count_occ Z.eq_dec [a; b; c; d; e; f; g; h; i] 255)
    then 255 else 0.
Proof.
  unfold bw_pixel.
  intros [-> | ->] [-> | ->] [-> | ->] [-> | ->] [-> | ->]
         [-> | ->] [-> | ->] [-> | ->] [-> | ->];
    vm_compute; reflexivity.
Qed.

End FilterFacts.

(** X10. In this pipeline the final sharpening step changes nothing: the
    preprocessed image is the median-filtered thresholded image itself,
    because the sharpening kernel maps every pixel of a rectangular
    black-and-white image to itself. *)
Theorem sharpen_changes_nothing (E : Env) (img : Pillow.RGBImage) :
  _preprocess_for_ocr E img
  = Pillow.MedianFilter 3
      (Pillow.point threshold
         (autocontrast E (grayscale E (upscaled E img (3 # 2)))))
  /\ (forall im, Pillow.bilevel im -> rect (Pillow.width im) im ->
                 Pillow.SHARPEN im = im).
Proof.
  split; [|apply SHARPEN_bilevel_id].
  unfold _preprocess_for_ocr, _preprocess_for_ocr_with.
  apply SHARPEN_bilevel_id.
  - apply RankFilter_bilevel, point_threshold_bilevel.
  - apply RankFilter_rect.
Qed.

Lemma sharpen_changes_nothing_witness :
  Pillow.SHARPEN [[0; 255; 0; 0]; [255; 0; 255; 0]; [0; 255; 255; 255]]
  = [[0; 255; 0; 0]; [255; 0; 255; 0]; [0; 255; 255; 255]].
Proof.
  apply (proj2 (sharpen_changes_nothing
                  Sample.env (Pillow.mkRGB (1, 1) [0]))).
  - repeat constructor; (left; reflexivity) || (right; reflexivity).
  - repeat constructor.
Defined.

(** X11. Thresholding, median filtering and sharpening keep the image
    dimensions: the preprocessed image has as many rows as the
    autocontrasted image it is computed from, every one of its rows has
    the width of that image, and so has the image itself unless it has no
    row at all. *)
Theorem preprocess_keeps_dimensions (E : Env) (img : Pillow.RGBImage) :
  let g := autocontrast E (grayscale E (upscaled E img (3 # 2))) in
  Pillow.height (_preprocess_for_ocr E img) = Pillow.height g
  /\ rect (Pillow.width g) (_preprocess_for_ocr E img)
  /\ (g <> [] -> Pillow.width (_preprocess_for_ocr E img) = Pillow.width g).
Proof.
  intros g.
  assert (Hpre : _preprocess_for_ocr E img
                 = Pillow.MedianFilter 3 (Pillow.point threshold g)).
  { unfold _preprocess_for_ocr, _preprocess_for_ocr_with.
    apply SHARPEN_bilevel_id.
    - apply RankFilter_bilevel, point_threshold_bilevel.
    - apply RankFilter_rect. }
  rewrite Hpre. unfold Pillow.MedianFilter.
  destruct (RankFilter_shape 3 (3 * 3 / 2) (Pillow.point threshold g))
    as [Hh [Hr Hw]].
  assert (Hpw : Pillow.width (Pillow.point threshold g) = Pillow.width g).
  { destruct g as [|r rest]; [reflexivity|]. simpl. apply length_map. }
  assert (Hph : Pillow.height (Pillow.point threshold g) = Pillow.height g).
  { unfold Pillow.height, Pillow.point. apply length_map. }
  rewrite Hpw in *. rewrite Hph in Hh.
  split; [exact Hh|]. split; [exact Hr|].
  intros Hne. apply Hw. unfold Pillow.point.
  destruct g; [contradiction|discriminate].
Qed.

Lemma preprocess_keeps_dimensions_witness :
  Pillow.width (_preprocess_for_ocr Sample.env
                  (Pillow.mkRGB (3, 1) [200; 100; 250]))
  = Pillow.width
      (autocontrast Sample.env
         (grayscale Sample.env
            (upscaled Sample.env (Pillow.mkRGB (3, 1) [200; 100; 250])
                      (3 # 2)))).
Proof.
  apply (proj2 (proj2 (preprocess_keeps_dimensions
                         Sample.env (Pillow.mkRGB (3, 1) [200; 100; 250])))).
  discriminate.
Defined.

(** X12. Denoising is a majority vote: every pixel of the preprocessed
    image is white exactly when at least five of the nine pixels of its
    3x3 neighbourhood in the thresholded image (edge pixels repeated
    beyond the border) are white, and black otherwise. *)
Theorem preprocess_pixel_majority (E : Env) (img : Pillow.RGBImage)
        (x y : nat) :
  let bw := Pillow.point threshold
              (autocontrast E (grayscale E (upscaled E img (3 # 2)))) in
  (x < Pillow.width bw)%nat -> (y < Pillow.height bw)%nat ->
  Pillow.getpixel (_preprocess_for_ocr E img) x y
  = if Nat.leb 5 (count_occ Z.eq_dec (Pillow.window 3 bw x y) 255)
    then 255 else 0.
Proof.
  intros bw Hx Hy.
  assert (Hpre : _preprocess_for_ocr E img = Pillow.MedianFilter 3 bw).
  { unfold _preprocess_for_ocr, _preprocess_for_ocr_with.
    apply SHARPEN_bilevel_id.
    - apply RankFilter_bilevel, point_threshold_bilevel.
    - apply RankFilter_rect. }
  rewrite Hpre.
  unfold Pillow.MedianFilter, Pillow.RankFilter, Pillow.getpixel.
  rewrite (nth_grid _ [] (Pillow.height bw) y Hy).
  rewrite (nth_grid _ 0 (Pillow.width bw) x Hx).
  change (3 * 3 / 2)%nat with 4%nat.
  assert (Hbw : Pillow.bilevel bw) by apply point_threshold_bilevel.
  unfold Pillow.window.
  change (Pillow.offsets 3) with [-1; 0; 1].
  cbn [flat_map map app].
  apply median9_majority;
    unfold Pillow.expanded_pixel; apply getpixel_bw; exact Hbw.
Qed.

Lemma preprocess_pixel_majority_witness :
  Pillow.getpixel
    (_preprocess_for_ocr Sample.env (Pillow.mkRGB (3, 1) [200; 100; 250]))
    1 0
  = 255.
Proof.
  apply (preprocess_pixel_majority
           Sample.env (Pillow.mkRGB (3, 1) [200; 100; 250]) 1 0);
    simpl; lia.
Defined.

(* ===================================================================== *)
(** ** Further properties: chunks and their names *)
(* ===================================================================== *)

Section ChunkTextFacts.

(** The slice taken for the pages [s..e]. *)
Lemma slice_range {A : Type} (l : list A) (s e : Z) :
  1 <= s -> s <= e + 1 -> e <= Z.of_nat (List.length l) ->
  Py.slice l (s - 1) e
  = firstn (Z.to_nat (e - s + 1)) (skipn (Z.to_nat (s - 1)) l).
Proof.
  intros Hs Hse He. unfold Py.slice, Py.slice_index.
  destruct (s - 1 <? 0) eqn:H1; [apply Z.ltb_lt in H1; lia|].
  destruct (e <? 0) eqn:H2; [apply Z.ltb_lt in H2; lia|].
  rewrite !Z.min_l by lia.
  replace (e - (s - 1)) with (e - s + 1) by lia. reflexivity.
Qed.

(** From any start page on, the slices of the loop put end to end are
    the rest of the page list. *)
Lemma chunk_slices_from {A : Type} (l : list A) (ppc : positive)
      (start : Z) :
  1 <= start ->
  List.concat
    (map (fun r => Py.slice l (fst r - 1) (snd r))
         (chunk_ranges (Z.of_nat (List.length l)) ppc start))
  = skipn (Z.to_nat (start - 1)) l.
Proof.
  induction start as [start Hgt|start Hle IH]
    using (remaining_pages_ind (Z.of_nat (List.length l)));
    intros H1; rewrite chunk_ranges_step.
  - destruct (start <=? _) eqn:Hb; [apply Z.leb_le in Hb; lia|].
    simpl. symmetry. apply skipn_all2. lia.
  - assert (Hb : (start <=? Z.of_nat (List.length l)) = true)
      by (apply Z.leb_le; exact Hle).
    rewrite Hb.
    set (e := Z.min (start + Zpos ppc - 1) (Z.of_nat (List.length l))).
    assert (He : start <= e <= Z.of_nat (List.length l))
      by (unfold e; lia).
    cbn [map List.concat fst snd].
    rewrite (IH (e + 1)) by lia.
    rewrite slice_range by lia.
    replace (Z.to_nat (e + 1 - 1))
      with (Z.to_nat (e - start + 1) + Z.to_nat (start - 1))%nat by lia.
    rewrite <- skipn_skipn. apply firstn_skipn.
Qed.

Lemma string_length_append (a b : string) :
  String.length (a ++ b) = (String.length a + String.length b)%nat.
Proof. induction a as [|c a IH]; simpl; [|rewrite IH]; reflexivity. Qed.

Lemma append_inj_l (a x y : string) :
  (a ++ x = a ++ y)%string -> x = y.
Proof.
  induction a as [|c a IH]; simpl; [intros H; exact H|].
  intros [= H]. apply IH. exact H.
Qed.

Lemma append_inj_r (a b c : string) :
  (a ++ c = b ++ c)%string -> a = b.
Proof.
  revert b. induction a as [|x a IH]; intros b H.
  - destruct b as [|y b]; [reflexivity|].
    apply (f_equal String.length) in H.
    rewrite !string_length_append in H. simpl in H. lia.
  - destruct b as [|y b].
    + apply (f_equal String.length) in H.
      rewrite !string_length_append in H. simpl in H. lia.
    + simpl in H. injection H as -> H. f_equal. apply IH. exact H.
Qed.

(** Two texts that agree up to the first occurrence of a character. *)
Lemma append_first_char (c : ascii) (a a' r r' : string) :
  lacks c a = true -> lacks c a' = true ->
  (a ++ String c r = a' ++ String c r')%string -> a = a' /\ r = r'.
Proof.
  revert a'. induction a as [|x a IH]; intros a' Ha Ha' H.
  - destruct a' as [|y a'].
    + simpl in H. injection H as ->. split; reflexivity.
    + simpl in H. injection H as <- _.
      unfold lacks in Ha'. simpl in Ha'.
      rewrite Ascii.eqb_refl in Ha'. discriminate.
  - unfold lacks in Ha. simpl in Ha. apply andb_true_iff in Ha.
    destruct Ha as [Hx Ha].
    destruct a' as [|y a'].
    + simpl in H. injection H as -> _.
      rewrite Ascii.eqb_refl in Hx. discriminate.
    + simpl in H. injection H as -> H.
      unfold lacks in Ha'. simpl in Ha'. apply andb_true_iff in Ha'.
      destruct (IH a' Ha (proj2 Ha') H) as [-> ->]. split; reflexivity.
Qed.

(** A string of decimal digits holds no minus sign. *)
Lemma digits_lack_minus (s : string) (d : Decimal.uint) :
  NilEmpty.uint_of_string s = Some d -> lacks "-" s = true.
Proof.
  revert d. induction s as [|c s IH]; intros d H; [reflexivity|].
  simpl in H. destruct (NilEmpty.uint_of_string s) as [d'|] eqn:Hs;
    [|discriminate].
  unfold lacks. simpl. fold (lacks "-" s). rewrite (IH d' eq_refl).
  apply uint_of_char_spec in H.
  destruct H as [[-> _]|[[-> _]|[[-> _]|[[-> _]|[[-> _]|[[-> _]|[[-> _]|
                [[-> _]|[[-> _]|[-> _]]]]]]]]]]; reflexivity.
Qed.

Lemma parse_zeros (k : nat) (s : string) (d : Decimal.uint) :
  NilEmpty.uint_of_string s = Some d ->
  exists d', NilEmpty.uint_of_string (Py.zeros k ++ s) = Some d'
             /\ Z.of_uint d' = Z.of_uint d.
Proof.
  intros Hs. induction k as [|k [d' [Hd' Hv]]]; [exists d; auto|].
  exists (Decimal.D0 d'). simpl. rewrite Hd'. split; [reflexivity|].
  rewrite <- Hv. reflexivity.
Qed.

Lemma str_of_int_digits (n : Z) :
  0 <= n ->
  exists d, NilEmpty.uint_of_string (Py.str_of_int n) = Some d
            /\ Z.of_uint d = n /\ Py.str_of_int n <> EmptyString.
Proof.
  intros Hn. unfold Py.str_of_int.
  destruct n as [|p|p]; [| |lia].
  - exists (Decimal.D0 Decimal.Nil). repeat split. discriminate.
  - pose proof (DecimalZ.of_to (Zpos p)) as Hv. simpl in Hv.
    simpl. generalize dependent (Pos.to_uint p). intros d Hv.
    exists d.
    destruct d; [discriminate Hv| ..];
      (split; [apply (NilEmpty.usu (_ d))|]);
      (split; [exact Hv|discriminate]).
Qed.

(** The zero-padded page number reads back as the page number. *)
Lemma parse_fmt_03d (n : Z) :
  0 <= n ->
  parse_page_number (Py.fmt_03d n) = Some n
  /\ lacks "-" (Py.fmt_03d n) = true.
Proof.
  intros Hn. unfold Py.fmt_03d.
  destruct (n <? 0) eqn:Hneg; [apply Z.ltb_lt in Hneg; lia|].
  unfold Py.zfill.
  destruct (str_of_int_digits n Hn) as [d [Hd [Hv Hne]]].
  destruct (parse_zeros (3 - String.length (Py.str_of_int n))
                        (Py.str_of_int n) d Hd) as [d' [Hd' Hv']].
  split; [|apply (digits_lack_minus _ d' Hd')].
  unfold parse_page_number.
  destruct (Py.zeros _ ++ Py.str_of_int n)%string eqn:Hz.
  - exfalso. apply (f_equal String.length) in Hz.
    rewrite string_length_append in Hz. simpl in Hz.
    destruct (Py.str_of_int n); [contradiction|simpl in Hz; lia].
  - rewrite Hd'. simpl. rewrite Hv', Hv. reflexivity.
Qed.

(** [rstrip] keeps everything up to a non-whitespace character. *)
Lemma rstrip_nonspace_head (c : ascii) (b : string) :
  Py.isspace c = false -> Py.rstrip (String c b) = String c (Py.rstrip b).
Proof.
  intros Hc. simpl. destruct (Py.rstrip b); [rewrite Hc|]; reflexivity.
Qed.

Lemma rstrip_app_keep (a s : string) :
  Py.rstrip s <> EmptyString ->
  Py.rstrip (a ++ s) = (a ++ Py.rstrip s)%string.
Proof.
  intros Hne. induction a as [|x a IH]; [reflexivity|].
  simpl. rewrite IH.
  destruct (a ++ Py.rstrip s)%string as [|y t] eqn:Happ; [|reflexivity].
  exfalso. destruct a; simpl in Happ; [contradiction|discriminate].
Qed.

Lemma join_cons (sep x : string) (l : list string) :
  exists tail, Py.join sep (x :: l) = (x ++ tail)%string.
Proof.
  destruct l as [|y l].
  - exists EmptyString. simpl. clear. induction x as [|c x IH];
      simpl; [reflexivity|]. rewrite <- IH. reflexivity.
  - exists (sep ++ Py.join sep (y :: l))%string. reflexivity.
Qed.

End ChunkTextFacts.

Section MarkerFacts.

Lemma strip_keeps_head (c0 c : ascii) (a T : string) :
  Py.isspace c0 = false -> Py.isspace c = false ->
  Py.strip (String c0 a ++ String c T)
  = (String c0 a ++ String c (Py.rstrip T))%string.
Proof.
  intros H0 Hc. unfold Py.strip.
  change (Py.lstrip (String c0 a ++ String c T))
    with (if Py.isspace c0 then Py.lstrip (a ++ String c T)
          else (String c0 a ++ String c T)%string).
  rewrite H0. rewrite rstrip_app_keep.
  - rewrite (rstrip_nonspace_head c T Hc). reflexivity.
  - rewrite (rstrip_nonspace_head c T Hc). discriminate.
Qed.

End MarkerFacts.

Section SliceFacts.

Lemma Forall2_map_same {A B C : Type} (R : B -> C -> Prop)
      (f : A -> B) (g : A -> C) (l : list A) :
  (forall x, R (f x) (g x)) -> Forall2 R (map f l) (map g l).
Proof.
  intros H. induction l as [|x l IH]; simpl; constructor; auto.
Qed.

(** The artifact of a chunk is built from the joined slice of its
    range. *)
Lemma chunk_output_holds (E : Env) (cfg : Config) (name base : string)
      (pages : list string) (r : Z * Z) :
  holds_text (snd (chunk_output E cfg name base pages r))
             (Py.strip (Py.join Py.blank_line
                          (Py.slice pages (fst r - 1) (snd r)))).
Proof.
  unfold chunk_output. cbv zeta.
  destruct (String.eqb (fmt cfg) "pdf"); simpl.
  - eexists. reflexivity.
  - reflexivity.
Qed.

End SliceFacts.

(** X13. Every artifact the worker writes for a document is built from
    the stripped blank-line join of one slice of the page texts, one
    slice per artifact in writing order, and these slices put end to end
    are exactly the list of page texts: with or without chunking no page
    text is left out, repeated or moved. *)
Theorem chunks_cover_pages (E : Env) (cfg : Config) (name : string)
        (pages_text : list string) (w : World) :
  exists new slices,
    files (write_outputs E cfg name pages_text w) = files w ++ new
    /\ Forall2 (fun out slice =>
                  holds_text (snd out)
                             (Py.strip (Py.join Py.blank_line slice)))
               new slices
    /\ slices
       = map (fun r => Py.slice pages_text (fst r - 1) (snd r))
             (page_ranges cfg (Z.of_nat (List.length pages_text)))
    /\ List.concat slices = pages_text.
Proof.
  exists (outputs E cfg name pages_text).
  exists (map (fun r => Py.slice pages_text (fst r - 1) (snd r))
              (page_ranges cfg (Z.of_nat (List.length pages_text)))).
  split; [apply files_write_outputs|].
  split; [|split; [reflexivity|]].
  - unfold outputs, page_ranges.
    destruct (do_chunk cfg && (pages_per_chunk cfg >? 0)).
    + apply (Forall2_map_same
               (fun out slice =>
                  holds_text (snd out)
                             (Py.strip (Py.join Py.blank_line slice)))).
      intros r. apply chunk_output_holds.
    + cbn [map fst snd]. constructor; [|constructor].
      unfold single_output. cbv zeta.
      destruct (String.eqb (fmt cfg) "pdf"); simpl.
      * eexists. reflexivity.
      * reflexivity.
  - unfold page_ranges.
    destruct (do_chunk cfg && (pages_per_chunk cfg >? 0)).
    + rewrite (chunk_slices_from pages_text _ 1) by lia. reflexivity.
    + cbn [map List.concat fst snd]. simpl (1 - 1).
      rewrite slice_all. apply app_nil_r.
Qed.

(** X14. For the page texts of an extracted document, the text of any
    chunk [s..e] within the document starts with the marker of its first
    page, ["[PAGE s]"]; it is therefore never empty, and the text writer
    writes it as it is, not the placeholder. *)
Theorem chunk_text_starts_with_marker (E : Env) (pdf_path : string)
        (d : Z) (lang : string) (log : log_msg -> World -> World)
        (w w' : World) (per_page : list string) (s e : Z) :
  extract_text_pages_force_ocr E pdf_path d lang log w = (w', Ok per_page) ->
  1 <= s -> s <= e -> e <= Z.of_nat (List.length per_page) ->
  (exists rest,
      join_pages per_page (s - 1) e
      = ("[PAGE " ++ Py.str_of_int s ++ "]" ++ rest)%string)
  /\ join_pages per_page (s - 1) e <> EmptyString
  /\ (forall path w0,
         files (save_text_as_txt (join_pages per_page (s - 1) e) path w0)
         = files w0 ++ [(path, TxtFile (join_pages per_page (s - 1) e))]).
Proof.
  intros Hrun Hs Hse He.
  destruct (extract_inv E _ _ _ _ _ _ _ Hrun) as [doc [Hopen Hall]].
  rewrite (extract_ok E _ _ _ _ _ doc Hopen Hall) in Hrun.
  injection Hrun as _ Hpages.
  assert (Hlen : List.length per_page = doc_len E doc)
    by (rewrite <- Hpages, length_map, length_seq; reflexivity).
  assert (Hi : (Z.to_nat (s - 1) < doc_len E doc)%nat) by lia.
  destruct (Hall _ Hi) as [txt Htxt].
  assert (Hfirst : nth (Z.to_nat (s - 1)) per_page EmptyString
                   = (page_marker s ++ txt)%string).
  { rewrite <- Hpages.
    rewrite (nth_indep _ EmptyString (page_text E doc d lang 0%nat))
      by (rewrite length_map, length_seq; exact Hi).
    rewrite map_nth, seq_nth by exact Hi. simpl (0 + _)%nat.
    unfold page_text. rewrite Htxt. rewrite Z2Nat.id by lia.
    replace (s - 1 + 1) with s by lia. reflexivity. }
  assert (Hjoin : exists T,
             join_pages per_page (s - 1) e
             = ("[PAGE " ++ Py.str_of_int s ++ "]" ++ Py.rstrip T)%string).
  { unfold join_pages. rewrite slice_pages_between by assumption.
    unfold pages_between.
    destruct (Z.to_nat (e - s + 1)) as [|m] eqn:Hm; [lia|].
    cbn [seq map]. rewrite Nat.add_0_r, Hfirst.
    destruct (join_cons Py.blank_line (page_marker s ++ txt)%string
                (map (fun k => nth (Z.to_nat (s - 1) + k)%nat per_page
                                   EmptyString) (seq 1 m)))
      as [tail ->].
    exists (Py.nl ++ txt ++ tail)%string.
    unfold page_marker.
    replace ((("[PAGE " ++ Py.str_of_int s ++ "]" ++ Py.nl) ++ txt) ++ tail)%string
      with (String "[" ("PAGE " ++ Py.str_of_int s)
            ++ String "]" (Py.nl ++ txt ++ tail))%string
      by (simpl; rewrite !string_append_assoc; reflexivity).
    rewrite strip_keeps_head by reflexivity.
    simpl. rewrite ?string_append_assoc. reflexivity. }
  destruct Hjoin as [T HT].
  split; [exists (Py.rstrip T); exact HT|].
  split; [rewrite HT; discriminate|].
  intros path w0. rewrite HT. reflexivity.
Qed.

Lemma chunk_text_starts_with_marker_witness :
  join_pages [("[PAGE 1]" ++ Py.nl ++ "Hello World")%string] (1 - 1) 1
  <> EmptyString.
Proof.
  refine (proj1 (proj2
    (chunk_text_starts_with_marker
       Sample.env "in/hello.pdf" 300 "eng" gui_log Sample.empty_world
       (gui_log (LogPage 1 1 300) Sample.empty_world)
       [("[PAGE 1]" ++ Py.nl ++ "Hello World")%string] 1 1 _ _ _ _)));
    [reflexivity|lia|lia|simpl; lia].
Defined.

(** X15. The zero-padded page number of a chunk file name reads back as
    the page number, and so the names of the chunks of one document are
    told apart by their ranges: two chunk names with the same base and
    extension are equal only when start and end pages are. *)
Theorem chunk_names_distinct (base ext : string) :
  (forall n, 0 <= n -> parse_page_number (Py.fmt_03d n) = Some n)
  /\ (forall s e s' e',
         0 <= s -> 0 <= e -> 0 <= s' -> 0 <= e' ->
         chunk_file_name base s e ext = chunk_file_name base s' e' ext ->
         s = s' /\ e = e').
Proof.
  split; [intros n Hn; apply parse_fmt_03d; exact Hn|].
  intros s e s' e' Hs He Hs' He' Hname.
  unfold chunk_file_name in Hname.
  apply append_inj_l in Hname. simpl in Hname.
  injection Hname as Hname.
  destruct (parse_fmt_03d s Hs) as [Hps Hls].
  destruct (parse_fmt_03d s' Hs') as [Hps' Hls'].
  destruct (parse_fmt_03d e He) as [Hpe _].
  destruct (parse_fmt_03d e' He') as [Hpe' _].
  destruct (append_first_char "-" _ _ _ _ Hls Hls' Hname) as [Hstart Hrest].
  apply append_inj_r in Hrest.
  rewrite Hstart in Hps. rewrite Hrest in Hpe.
  split; congruence.
Qed.

Lemma chunk_names_distinct_witness :
  parse_page_number (Py.fmt_03d 21) = Some 21
  /\ (chunk_file_name "scan" 1 10 ".txt" = chunk_file_name "scan" 1 10 ".txt"
      -> 1 = 1 /\ 10 = 10).
Proof.
  split.
  - apply (proj1 (chunk_names_distinct "scan" ".txt")). lia.
  - apply (proj2 (chunk_names_distinct "scan" ".txt")); lia.
Defined.

(** X16. What [_ocr_page_image] returns for the text of the engine is
    that text between its leading and trailing whitespace; it is empty
    exactly when the engine produced whitespace only, which is a valid
    result and gives the page entry ["[PAGE n]"] followed by a newline;
    an exception of the engine is passed on unchanged. *)
Theorem ocr_text_is_trimmed (E : Env) (img : Pillow.LImage)
        (lang : string) :
  (forall text,
      image_to_string E img lang OCR_CONFIG = Ok text ->
      exists t,
        _ocr_page_image E img lang = Ok t
        /\ trimmed_of text t
        /\ (t = EmptyString <-> all_space text = true))
  /\ (forall e,
         image_to_string E img lang OCR_CONFIG = Raise e ->
         _ocr_page_image E img lang = Raise e).
Proof.
  split.
  - intros text Heng. exists (Py.strip text).
    unfold _ocr_page_image. fold OCR_CONFIG. rewrite Heng, str_or_empty.
    split; [reflexivity|]. split; [apply strip_trimmed|].
    split; intros H; apply strip_space; exact H.
  - intros e Heng. unfold _ocr_page_image. fold OCR_CONFIG.
    rewrite Heng. reflexivity.
Qed.

Lemma ocr_text_is_trimmed_witness :
  exists t,
    _ocr_page_image Sample.env [[255; 255; 255]] "eng" = Ok t
    /\ trimmed_of ("  Hello World" ++ Py.nl)%string t
    /\ (t = EmptyString
        <-> all_space ("  Hello World" ++ Py.nl)%string = true).
Proof.
  apply (proj1 (ocr_text_is_trimmed Sample.env [[255; 255; 255]] "eng")).
  reflexivity.
Defined.

Section CountFacts.

(** The number of turns of the chunk loop. *)
Lemma chunk_ranges_length (total : Z) (ppc : positive) (start : Z) :
  start <= total + 1 ->
  Z.of_nat (List.length (chunk_ranges total ppc start))
  = (total - start + Zpos ppc) / Zpos ppc.
Proof.
  induction start as [start Hgt|start Hle IH]
    using (remaining_pages_ind total); intros Hstart;
    rewrite chunk_ranges_step.
  - destruct (start <=? total) eqn:Hb; [apply Z.leb_le in Hb; lia|].
    simpl. symmetry. apply Z.div_small. lia.
  - assert (Hb : (start <=? total) = true) by (apply Z.leb_le; exact Hle).
    rewrite Hb. cbn [List.length]. rewrite Nat2Z.inj_succ.
    rewrite IH by lia. unfold Z.succ.
    replace (total - start + Zpos ppc)
      with ((total - start) + 1 * Zpos ppc) by lia.
    rewrite Z.div_add by lia.
    destruct (Z_le_gt_dec (start + Zpos ppc - 1) total) as [Hfull|Hlast].
    + rewrite Z.min_l by lia.
      replace (total - (start + Zpos ppc - 1 + 1) + Zpos ppc)
        with (total - start) by lia.
      reflexivity.
    + rewrite Z.min_r by lia.
      rewrite (Z.div_small (total - start)) by lia.
      rewrite Z.div_small by lia. reflexivity.
Qed.

End CountFacts.

(** X17. A chunked run with chunk size [k > 0] writes, for a document of
    [n] pages, exactly [ceil(n / k)] files (none for a document without
    pages); a run without chunking, or with [k <= 0], writes exactly one
    file per document, also when the document has no page. *)
Theorem output_count (E : Env) (cfg : Config) (name : string)
        (pages_text : list string) (w : World) :
  let n := Z.of_nat (List.length pages_text) in
  let k := pages_per_chunk cfg in
  (do_chunk cfg = true -> 0 < k ->
   Z.of_nat (List.length (files (write_outputs E cfg name pages_text w)))
   = Z.of_nat (List.length (files w)) + (n + k - 1) / k)
  /\ (do_chunk cfg = false \/ k <= 0 ->
      List.length (files (write_outputs E cfg name pages_text w))
      = S (List.length (files w))).
Proof.
  intros n k. rewrite files_write_outputs, length_app. unfold outputs.
  split.
  - intros Hchunk Hk.
    assert (Hguard : do_chunk cfg && (pages_per_chunk cfg >? 0) = true).
    { rewrite Hchunk. simpl. apply Z.gtb_lt. exact Hk. }
    rewrite Hguard, length_map, Nat2Z.inj_add.
    rewrite chunk_ranges_length by lia.
    rewrite Z2Pos.id by exact Hk. fold n k.
    f_equal. f_equal. lia.
  - intros Hoff.
    assert (Hguard : do_chunk cfg && (pages_per_chunk cfg >? 0) = false).
    { destruct Hoff as [H|H]; [rewrite H; reflexivity|].
      apply andb_false_iff. right.
      destruct (pages_per_chunk cfg >? 0) eqn:Hb; [|reflexivity].
      apply Z.gtb_lt in Hb. fold k in Hb. lia. }
    rewrite Hguard. simpl List.length. lia.
Qed.

Lemma output_count_witness :
  Z.of_nat (List.length
              (files (write_outputs Sample.env
                        (Sample.config [] "txt" true 10) "scan.pdf"
                        (repeat "p" 25) Sample.empty_world)))
  = Z.of_nat (List.length (files Sample.empty_world)) + (25 + 10 - 1) / 10
  /\ List.length
       (files (write_outputs Sample.env
                 (Sample.config [] "pdf" false 10) "scan.pdf" []
                 Sample.empty_world))
     = S (List.length (files Sample.empty_world)).
Proof.
  split.
  - apply (proj1 (output_count Sample.env (Sample.config [] "txt" true 10)
                               "scan.pdf" (repeat "p" 25)
                               Sample.empty_world));
      reflexivity.
  - apply (proj2 (output_count Sample.env (Sample.config [] "pdf" false 10)
                               "scan.pdf" [] Sample.empty_world)).
    left. reflexivity.
Defined.
